(** * extract_text.py: plain-text extraction from office documents

    A shallow embedding of [scripts/extract_text.py] and the properties of
    its extractors (docx, pptx, pdf, legacy doc) and of its dispatcher.

    Conventions of the embedding.
    - A Python [str] is a list of characters.  Characters are the code
      points U+0000..U+00FF (the 8-bit [ascii] type); on that range
      [isspace], [isdigit] and [lower] below agree with CPython's tables.
    - A Python exception is a value of [exn]; a call that may raise returns
      a [result].
    - The collaborators the script only consumes (zip reader, XML parser,
      PDF library, subprocesses, file system) appear through what they
      answer: an opened archive is the list of its members with the tree
      the XML parser makes of each, a PDF backend is the reader it builds,
      a host is the table of its answers to probes and commands. *)

From Stdlib Require Import List String Ascii Bool Arith NArith Lia.
From Stdlib Require Import Sorted Permutation.
Import ListNotations.

Set Implicit Arguments.
Set Warnings "-register-all".

(** ** Python values *)

Module Py.

Definition str := list ascii.

(** String literals of the source. *)
Definition lit (s : string) : str := list_ascii_of_string s.

Definition TAB : ascii := ascii_of_nat 9.
Definition LF : ascii := ascii_of_nat 10.

Inductive exn : Type :=
| RuntimeError (msg : str)
| SystemExit (msg : str)
| ValueError
| KeyError (name : str)
| BadZipFile
| ParseError
| CalledProcessError (cmd : list str)
| ImportError
| LibraryError.

Inductive result (A : Type) : Type :=
| Ok (a : A)
| Raise (e : exn).

Arguments Ok {A} a.
Arguments Raise {A} e.

Definition bind {A B} (m : result A) (k : A -> result B) : result B :=
  match m with
  | Ok a => k a
  | Raise e => Raise e
  end.

(** [x or ""] for an optional string. *)
Definition or_empty (o : option str) : str :=
  match o with
  | Some s => s
  | None => []
  end.

(** Truth value of an optional string: [None] and [""] are false. *)
Definition truthy_opt (o : option str) : bool :=
  match o with
  | Some (_ :: _) => true
  | _ => false
  end.

(** Truth value of a string or of a list: non-empty. *)
Definition truthy {A} (l : list A) : bool :=
  match l with
  | [] => false
  | _ :: _ => true
  end.

Definition between (lo hi n : nat) : bool := (lo <=? n) && (n <=? hi).

(** [ch.isspace()]: U+0009..U+000D, U+001C..U+0020, U+0085, U+00A0. *)
Definition isspace (c : ascii) : bool :=
  let n := nat_of_ascii c in
  between 9 13 n || between 28 32 n || (n =? 133) || (n =? 160).

(** [ch.isdecimal()]: the ten ASCII digits. *)
Definition isdecimal (c : ascii) : bool := between 48 57 (nat_of_ascii c).

(** [ch.isdigit()]: the decimal digits and the superscripts U+00B2, U+00B3,
    U+00B9, which are digits but not decimal. *)
Definition isdigit (c : ascii) : bool :=
  let n := nat_of_ascii c in
  between 48 57 n || (n =? 178) || (n =? 179) || (n =? 185).

(** [ch.lower()]: A..Z and U+00C0..U+00DE except U+00D7 move by 32. *)
Definition lower_char (c : ascii) : ascii :=
  let n := nat_of_ascii c in
  if between 65 90 n || (between 192 222 n && negb (n =? 215))
  then ascii_of_nat (n + 32)
  else c.

Definition lower (s : str) : str := map lower_char s.

Fixpoint lstrip (s : str) : str :=
  match s with
  | [] => []
  | c :: r => if isspace c then lstrip r else s
  end.

Definition rstrip (s : str) : str := rev (lstrip (rev s)).

(** [s.strip()] *)
Definition strip (s : str) : str := rstrip (lstrip s).

(** A string without white space at either end. *)
Definition trimmed (s : str) : Prop :=
  strip s = s /\
  (forall c r, s = c :: r -> isspace c = false) /\
  (forall c r, s = r ++ [c] -> isspace c = false).

(** A string that starts and ends with a character that is no space. *)
Definition clean (s : str) : Prop :=
  (exists c r, s = c :: r /\ isspace c = false) /\
  (exists c r, rev s = c :: r /\ isspace c = false).

(** A string of white space only. *)
Definition blank (s : str) : bool := forallb isspace s.

(** [sep.join(l)] *)
Fixpoint join (sep : str) (l : list str) : str :=
  match l with
  | [] => []
  | x :: r =>
      match r with
      | [] => x
      | _ :: _ => x ++ sep ++ join sep r
      end
  end.

Definition eqb_char (a b : ascii) : bool := Ascii.eqb a b.

Fixpoint eqb (a b : str) : bool :=
  match a, b with
  | [], [] => true
  | x :: a', y :: b' => eqb_char x y && eqb a' b'
  | _, _ => false
  end.

(** [s.startswith(p)] *)
Fixpoint startswith (s p : str) : bool :=
  match p, s with
  | [], _ => true
  | x :: p', y :: s' => eqb_char x y && startswith s' p'
  | _ :: _, [] => false
  end.

(** [s.endswith(p)] *)
Definition endswith (s p : str) : bool := startswith (rev s) (rev p).

(** [needle in hay] *)
Fixpoint contains (needle hay : str) : bool :=
  startswith hay needle ||
  match hay with
  | [] => false
  | _ :: r => contains needle r
  end.

(** [int(s)] on the strings the script passes to it, which are made of
    [isdigit] characters only: the base-ten value when the string is not
    empty and every character is decimal, [ValueError] otherwise.  (The
    interpreter's optional cap on the length of such a literal is taken as
    switched off.) *)
Definition digit_value (c : ascii) : N := N.of_nat (nat_of_ascii c - 48).

Fixpoint int_from (acc : N) (s : str) : result N :=
  match s with
  | [] => Ok acc
  | c :: r =>
      if isdecimal c then int_from (10 * acc + digit_value c)%N r
      else Raise ValueError
  end.

Definition int (s : str) : result N :=
  match s with
  | [] => Raise ValueError
  | _ :: _ => int_from 0%N s
  end.

(** Split at the last occurrence of [c]: [Some (b, a)] with
    [s = b ++ c :: a] and no [c] in [a]; [None] when [c] does not occur. *)
Fixpoint rsplit (c : ascii) (s : str) : option (str * str) :=
  match s with
  | [] => None
  | x :: r =>
      match rsplit c r with
      | Some (b, a) => Some (x :: b, a)
      | None => if eqb_char x c then Some ([], r) else None
      end
  end.

Definition SLASH : ascii := ascii_of_nat 47.
Definition DOT : ascii := ascii_of_nat 46.

(** [os.path.basename(p)] (POSIX): what follows the last slash. *)
Definition basename (p : str) : str :=
  match rsplit SLASH p with
  | Some (_, a) => a
  | None => p
  end.

(** [os.path.splitext(p)] (POSIX): the extension starts at the last dot of
    the last path component, unless only dots precede it there. *)
Definition splitext (p : str) : str * str :=
  let '(head, base) :=
    match rsplit SLASH p with
    | Some (b, a) => (b ++ [SLASH], a)
    | None => ([], p)
    end in
  match rsplit DOT base with
  | Some (stem, e) =>
      if forallb (fun x => eqb_char x DOT) stem then (p, [])
      else (head ++ stem, DOT :: e)
  | None => (p, [])
  end.

End Py.

Import Py.

Declare Scope py_scope.
Delimit Scope py_scope with py.
Notation "x <- m ;; k" := (bind m (fun x => k))
  (at level 61, m at next level, right associativity) : py_scope.
Open Scope py_scope.

(** ** xml.etree.ElementTree *)

Module ET.

(** An element as the script reads it: qualified tag, text, children. *)
Inductive Element : Type :=
| Elem (tag : str) (text : option str) (children : list Element).

Definition tag (e : Element) : str := let 'Elem t _ _ := e in t.
Definition text (e : Element) : option str := let 'Elem _ x _ := e in x.
Definition children (e : Element) : list Element := let 'Elem _ _ c := e in c.

(** [e.iter()]: the element, then its subtree in document order. *)
Fixpoint iter (e : Element) : list Element :=
  match e with
  | Elem _ _ cs => e :: flat_map iter cs
  end.

(** Induction over a tree: a property of every child gives the property
    of the element. *)
Section Induction.
Variable P : Element -> Prop.
Hypothesis step : forall t x cs, Forall P cs -> P (Elem t x cs).

Fixpoint subtree_ind (e : Element) : P e :=
  match e with
  | Elem t x cs =>
      step t x
        ((fix children_ind (l : list Element) : Forall P l :=
            match l with
            | [] => Forall_nil P
            | c :: r => Forall_cons c (subtree_ind c) (children_ind r)
            end) cs)
  end.
End Induction.

(** [root.findall(".//T", ns)]: every element below the root (the root is
    not a candidate) whose tag is T, in document order. *)
Definition findall (t : str) (root : Element) : list Element :=
  filter (fun e => Py.eqb (tag e) t) (flat_map iter (children root)).

(** An archive member, as what the XML parser makes of its bytes. *)
Inductive member : Type :=
| Xml (root : Element)
| Malformed.

(** [ET.fromstring(xml)] *)
Definition fromstring (m : member) : result Element :=
  match m with
  | Xml root => Ok root
  | Malformed => Raise ParseError
  end.

End ET.

(** ** zipfile *)

Module Zip.

(** The central directory in its order; a name may occur more than once. *)
Definition ZipFile := list (str * ET.member).

(** [zipfile.ZipFile(path)] *)
Inductive opened : Type :=
| Opened (zf : ZipFile)
| NotAZip.

Definition open (o : opened) : result ZipFile :=
  match o with
  | Opened zf => Ok zf
  | NotAZip => Raise BadZipFile
  end.

(** [zf.namelist()] *)
Definition namelist (zf : ZipFile) : list str := map fst zf.

(** The name table of the archive: a later member of the same name
    replaces an earlier one. *)
Fixpoint getinfo (zf : ZipFile) (name : str) : option ET.member :=
  match zf with
  | [] => None
  | (n, m) :: r =>
      match getinfo r name with
      | Some m' => Some m'
      | None => if Py.eqb n name then Some m else None
      end
  end.

(** [zf.read(name)] *)
Definition read (zf : ZipFile) (name : str) : result ET.member :=
  match getinfo zf name with
  | Some m => Ok m
  | None => Raise (KeyError name)
  end.

End Zip.

(** ** extract_docx *)

Module Docx.

Definition WORD_NS : str :=
  lit "http://schemas.openxmlformats.org/wordprocessingml/2006/main".

(** The qualified tag [{namespace}local]. *)
Definition qname (ns : str) (local : string) : str :=
  lit "{" ++ ns ++ lit "}" ++ lit local.

Definition W (local : string) : str := qname WORD_NS local.

(** Body of [for node in p.iter()]. *)
Definition visit (parts : list str) (node : ET.Element) : list str :=
  if Py.eqb (ET.tag node) (W "t") && truthy_opt (ET.text node)
  then parts ++ [or_empty (ET.text node)]
  else if Py.eqb (ET.tag node) (W "tab")
  then parts ++ [[TAB]]
  else if Py.eqb (ET.tag node) (W "br") || Py.eqb (ET.tag node) (W "cr")
  then parts ++ [[LF]]
  else parts.

(** Body of [for p in root.findall(".//w:p", WORD_NS)]. *)
Definition collect (paragraphs : list str) (p : ET.Element) : list str :=
  let parts := fold_left visit (ET.iter p) [] in
  let paragraph_text := strip (List.concat parts) in
  if truthy paragraph_text then paragraphs ++ [paragraph_text]
  else paragraphs.

Definition extract_docx (file : Zip.opened) : result str :=
  zf <- Zip.open file ;;
  xml <- Zip.read zf (lit "word/document.xml") ;;
  root <- ET.fromstring xml ;;
  let paragraphs := fold_left collect (ET.findall (W "p") root) [] in
  Ok (strip (join [LF] paragraphs)).

(** The extraction as the specification words it. *)

(** What one node below a paragraph contributes: the content of a text
    run, a tab for a tab node, a newline for a break or carriage return. *)
Definition spec_render (node : ET.Element) : str :=
  if Py.eqb (ET.tag node) (W "t") then or_empty (ET.text node)
  else if Py.eqb (ET.tag node) (W "tab") then [TAB]
  else if Py.eqb (ET.tag node) (W "br") then [LF]
  else if Py.eqb (ET.tag node) (W "cr") then [LF]
  else [].

(** The text below a paragraph node before it is trimmed. *)
Definition raw_paragraph (p : ET.Element) : str :=
  List.concat (map spec_render (ET.iter p)).

Definition spec_paragraph (p : ET.Element) : str :=
  strip (List.concat (map spec_render (ET.iter p))).

(** Every paragraph node of the tree, in document order. *)
Definition paragraph_nodes (root : ET.Element) : list ET.Element :=
  filter (fun e => Py.eqb (ET.tag e) (W "p")) (ET.iter root).

Definition spec_docx (root : ET.Element) : str :=
  strip (join [LF]
           (filter truthy (map spec_paragraph (paragraph_nodes root)))).

(** A well-formed document: a zip archive whose main document entry is
    an XML tree with the [w:document] element at its root. *)
Definition well_formed (file : Zip.opened) (root : ET.Element) : Prop :=
  exists zf, file = Zip.Opened zf /\
             Zip.getinfo zf (lit "word/document.xml") = Some (ET.Xml root) /\
             ET.tag root = W "document".

End Docx.

(** ** extract_pptx *)

Module Pptx.

Definition DRAWING_NS : str :=
  lit "http://schemas.openxmlformats.org/drawingml/2006/main".

Definition A (local : string) : str := Docx.qname DRAWING_NS local.

Definition is_slide (name : str) : bool :=
  startswith name (lit "ppt/slides/slide") && endswith name (lit ".xml").

Definition slide_index (name : str) : result N :=
  let base := basename name in
  let digits := filter isdigit base in
  if truthy digits then int digits else Ok 0%N.

(** [l.sort(key=f)]: the keys are computed first, one call per item, and
    an exception of [f] leaves the sort; then the items are put in
    ascending key order, items of equal key keeping their order. *)
Section Sort.
Variable T : Type.
Variable key : T -> result N.

Fixpoint keyed (l : list T) : result (list (N * T)) :=
  match l with
  | [] => Ok []
  | x :: r =>
      k <- key x ;;
      kr <- keyed r ;;
      Ok ((k, x) :: kr)
  end.

Fixpoint insert (x : N * T) (l : list (N * T)) : list (N * T) :=
  match l with
  | [] => [x]
  | y :: r => if (fst x <=? fst y)%N then x :: y :: r else y :: insert x r
  end.

Definition stable_sort (l : list (N * T)) : list (N * T) :=
  fold_right insert [] l.

Definition sort (l : list T) : result (list T) :=
  kl <- keyed l ;;
  Ok (map snd (stable_sort kl)).

(** Order of two keyed items, and of two items by their keys. *)
Definition key_le (p q : N * T) : Prop := (fst p <= fst q)%N.

Definition by_key (a b : T) : Prop :=
  exists i j, key a = Ok i /\ key b = Ok j /\ (i <= j)%N.

Definition key_is (k : N) (x : T) : bool :=
  match key x with
  | Ok i => (i =? k)%N
  | Raise _ => false
  end.
End Sort.

(** [for x in l: body], the body updating an accumulator or raising. *)
Fixpoint for_each {S T} (body : S -> T -> result S) (l : list T) (s : S)
  : result S :=
  match l with
  | [] => Ok s
  | x :: r => s' <- body s x ;; for_each body r s'
  end.

(** [[t.text for t in root.findall(".//a:t", DRAWING_NS) if t.text]] *)
Definition texts_of (root : ET.Element) : list str :=
  map (fun t => or_empty (ET.text t))
      (filter (fun t => truthy_opt (ET.text t)) (ET.findall (A "t") root)).

(** Body of [for slide_name in slide_names]. *)
Definition slide (zf : Zip.ZipFile) (slide_texts : list str)
    (slide_name : str) : result (list str) :=
  xml <- Zip.read zf slide_name ;;
  root <- ET.fromstring xml ;;
  let texts := texts_of root in
  if truthy texts then Ok (slide_texts ++ [strip (join [LF] texts)])
  else Ok slide_texts.

(** What one slide adds to [slide_texts]: nothing or one block. *)
Definition blocks_of (zf : Zip.ZipFile) (slide_name : str) : list str :=
  match slide zf [] slide_name with
  | Ok blocks => blocks
  | Raise _ => []
  end.




(** The archive without the members that are not slides. *)
Definition slides_only (zf : Zip.ZipFile) : Zip.ZipFile :=
  filter (fun member => is_slide (fst member)) zf.

(** The slide names after [slide_names.sort(key=slide_index)]. *)
Definition slide_order (zf : Zip.ZipFile) : result (list str) :=
  sort slide_index (filter is_slide (Zip.namelist zf)).

(** The list [slide_texts] when the loop ends. *)
Definition slide_blocks (zf : Zip.ZipFile) : result (list str) :=
  slide_names <- slide_order zf ;;
  for_each (slide zf) slide_names [].

Definition extract_pptx (file : Zip.opened) : result str :=
  zf <- Zip.open file ;;
  slide_texts <- slide_blocks zf ;;
  Ok (strip (join [LF; LF] slide_texts)).

End Pptx.

(** ** extract_pdf *)

Module Pdf.

(** [page.extract_text()]: raises, or returns [None] or a string. *)
Inductive page : Type :=
| ExtractRaises
| Extracted (t : option str).

(** A constructed reader: the pages that iterating [reader.pages] yields
    and whether the iteration itself then raises. *)
Record PdfReader : Type := {
  pages : list page;
  pages_raise : bool
}.

(** [from lib import PdfReader; PdfReader(path)] for one library. *)
Inductive backend : Type :=
| NotInstalled
| ConstructorRaises
| Constructed (reader : PdfReader).

Definition installed (b : backend) : bool :=
  match b with
  | NotInstalled => false
  | _ => true
  end.

(** What the two libraries do with the file at the given path. *)
Record libraries : Type := {
  pypdf : backend;
  PyPDF2 : backend
}.

Definition construct (b : backend) : result PdfReader :=
  match b with
  | NotInstalled => Raise ImportError
  | ConstructorRaises => Raise LibraryError
  | Constructed reader => Ok reader
  end.

Definition MISSING : str :=
  lit "Unable to extract .pdf: missing Python PDF library (pypdf / PyPDF2)".

(** The nested [try ... except Exception] around import and construction. *)
Definition open_reader (env : libraries) : result PdfReader :=
  match construct (pypdf env) with
  | Ok reader => Ok reader
  | Raise _ =>
      match construct (PyPDF2 env) with
      | Ok reader => Ok reader
      | Raise _ => Raise (RuntimeError MISSING)
      end
  end.

(** [page.extract_text() or ""] under [try ... except Exception]. *)
Definition page_text (p : page) : str :=
  match p with
  | ExtractRaises => []
  | Extracted t => or_empty t
  end.

(** Body of [for page in reader.pages]. *)
Definition add_page (pages_text : list str) (p : page) : list str :=
  let text := strip (page_text p) in
  if truthy text then pages_text ++ [text] else pages_text.

Definition extract_pdf (env : libraries) : result str :=
  reader <- open_reader env ;;
  let pages_text := fold_left add_page (pages reader) [] in
  if pages_raise reader then Raise LibraryError
  else Ok (strip (join [LF; LF] pages_text)).

(** The extraction as the specification words it: the texts of the pages
    whose extraction returned, each trimmed, the empty ones dropped, the
    rest joined by blank lines, the whole trimmed. *)
Definition returned (p : page) : list str :=
  match p with
  | ExtractRaises => []
  | Extracted t => [or_empty t]
  end.

Definition spec_pdf (ps : list page) : str :=
  strip (join [LF; LF] (filter truthy (map strip (flat_map returned ps)))).

End Pdf.

(** ** extract_doc_via_system_tools *)

Module Doc.

(** [subprocess.run(cmd, ...)]: exit status and decoded standard output. *)
Record completed : Type := {
  returncode : nat;
  stdout : str
}.

(** The host as the extractor sees it.  [listdir] and [read] answer for
    the temporary directory after the conversion has run; [read] is the
    file's bytes decoded as UTF-8 with replacement. *)
Record host : Type := {
  system : str;
  path_exists : str -> bool;
  call : list str -> nat;
  run : list str -> completed;
  tempdir : str;
  listdir : str -> list str;
  read : str -> str
}.

(** What the extractor does to the host, in order. *)
Inductive event : Type :=
| Exists (p : str)
| Call (cmd : list str)
| Run (cmd : list str)
| Listdir (d : str)
| Read (p : str).

(** Computations that log their events and may raise. *)
Definition M (A : Type) : Type := list event -> result A * list event.

Definition ret {A} (a : A) : M A := fun tr => (Ok a, tr).

Definition raise {A} (e : exn) : M A := fun tr => (Raise e, tr).

Definition bindM {A B} (m : M A) (k : A -> M B) : M B :=
  fun tr =>
    match m tr with
    | (Ok a, tr') => k a tr'
    | (Raise e, tr') => (Raise e, tr')
    end.

Definition emit (ev : event) : M unit := fun tr => (Ok tt, tr ++ [ev]).

Declare Scope doc_scope.
Notation "x <- m ;; k" := (bindM m (fun x => k))
  (at level 61, m at next level, right associativity) : doc_scope.
Local Open Scope doc_scope.

Section Host.
Variable h : host.

Definition os_path_exists (p : str) : M bool :=
  _ <- emit (Exists p) ;; ret (path_exists h p).

Definition subprocess_call (cmd : list str) : M nat :=
  _ <- emit (Call cmd) ;; ret (call h cmd).

Definition os_listdir (d : str) : M (list str) :=
  _ <- emit (Listdir d) ;; ret (listdir h d).

Definition read_decoded (p : str) : M str :=
  _ <- emit (Read p) ;; ret (read h p).

(** [subprocess.run(cmd, check=True, ...)] and the decoding of stdout. *)
Definition _run (cmd : list str) : M str :=
  _ <- emit (Run cmd) ;;
  let completed := run h cmd in
  if returncode completed =? 0 then ret (stdout completed)
  else raise (CalledProcessError cmd).

Definition which (name : str) : list str :=
  [lit "/usr/bin/env"; lit "which"; name].

(** [os.path.join(a, b)] (POSIX) *)
Definition path_join (a b : str) : str :=
  if startswith b [SLASH] then b
  else if negb (truthy a) || endswith a [SLASH] then a ++ b
  else a ++ [SLASH] ++ b.

(** The loop over [("soffice", "libreoffice")]. *)
Fixpoint find_soffice (candidates : list str) : M (option str) :=
  match candidates with
  | [] => ret None
  | candidate :: rest =>
      status <- subprocess_call (which candidate) ;;
      if status =? 0 then ret (Some candidate) else find_soffice rest
  end.

Definition TEXTUTIL : str := lit "/usr/bin/textutil".

Definition UNABLE : str :=
  lit "Unable to extract .doc on this system. Convert to .docx, or install 'antiword' or LibreOffice.".

Definition textutil_cmd (path : str) : list str :=
  [TEXTUTIL; lit "-convert"; lit "txt"; lit "-stdout"; path].

Definition antiword_cmd (path : str) : list str := [lit "antiword"; path].

Definition soffice_cmd (soffice path : str) : list str :=
  [soffice; lit "--headless"; lit "--convert-to"; lit "txt:Text";
   lit "--outdir"; tempdir h; path].

Definition extract_doc_via_system_tools (path : str) : M str :=
  textutil <-
    (if Py.eqb (system h) (lit "Darwin") then os_path_exists TEXTUTIL
     else ret false) ;;
  if textutil then
    out <- _run (textutil_cmd path) ;; ret (strip out)
  else
    status <- subprocess_call (which (lit "antiword")) ;;
    if status =? 0 then
      out <- _run (antiword_cmd path) ;; ret (strip out)
    else
      soffice <- find_soffice [lit "soffice"; lit "libreoffice"] ;;
      match soffice with
      | Some soffice =>
          _ <- _run (soffice_cmd soffice path) ;;
          names <- os_listdir (tempdir h) ;;
          let outputs :=
            filter (fun p => endswith (lower p) (lit ".txt")) names in
          match outputs with
          | first :: _ =>
              data <- read_decoded (path_join (tempdir h) first) ;;
              ret (strip data)
          | [] => raise (RuntimeError UNABLE)
          end
      | None => raise (RuntimeError UNABLE)
      end.

(** The three candidates, as the probes find them. *)
Definition textutil_present : bool :=
  Py.eqb (system h) (lit "Darwin") && path_exists h TEXTUTIL.

Definition antiword_present : bool :=
  call h (which (lit "antiword")) =? 0.

Definition office_present : bool :=
  (call h (which (lit "soffice")) =? 0)
  || (call h (which (lit "libreoffice")) =? 0).

(** The run of the extractor from an empty log. *)
Definition extract_doc (path : str) : result str * list event :=
  extract_doc_via_system_tools path [].
End Host.

(** The candidates, in the order the extractor prefers them. *)
Inductive candidate : Type := Textutil | Antiword | Office.

Definition rank (c : candidate) : nat :=
  match c with
  | Textutil => 0
  | Antiword => 1
  | Office => 2
  end.

Definition present (h : host) (c : candidate) : bool :=
  match c with
  | Textutil => textutil_present h
  | Antiword => antiword_present h
  | Office => office_present h
  end.

(** The candidate an event probes or invokes, if any. *)
Definition touches (ev : event) : option candidate :=
  match ev with
  | Exists _ => Some Textutil
  | Call cmd =>
      if Py.eqb (nth 2 cmd []) (lit "antiword") then Some Antiword
      else Some Office
  | Run cmd =>
      if Py.eqb (nth 0 cmd []) TEXTUTIL then Some Textutil
      else if Py.eqb (nth 0 cmd []) (lit "antiword") then Some Antiword
      else Some Office
  | Listdir _ => Some Office
  | Read _ => Some Office
  end.

(** A candidate is tried in a run when an event of the log probes or
    invokes it, and invoked when the log holds one of its commands. *)
Definition tried (tr : list event) (c : candidate) : Prop :=
  exists ev, In ev tr /\ touches ev = Some c.

Definition invoked (tr : list event) (c : candidate) : Prop :=
  exists cmd, In (Run cmd) tr /\ touches (Run cmd) = Some c.

Definition earlier (c' c : candidate) : Prop := rank c' < rank c.

(** The commands of a log. *)
Definition commands (tr : list event) : list (list str) :=
  flat_map (fun ev => match ev with
                      | Run cmd => [cmd]
                      | _ => []
                      end) tr.

(** The listing of the output directory that the extractor keeps. *)
Definition text_outputs (h : host) : list str :=
  filter (fun p => endswith (lower p) (lit ".txt")) (listdir h (tempdir h)).

End Doc.

(** ** main *)

Module Main.

(** The files and the host of one invocation. *)
Record world : Type := {
  zipfile_at : str -> Zip.opened;
  pdf_at : str -> Pdf.libraries;
  host : Doc.host
}.

(** [print(x)]: the text and a newline on standard output. *)
Definition print (x : str) : str := x ++ [LF].

Definition UNSUPPORTED (ext mime : str) : str :=
  lit "Unsupported file extension for python extraction: " ++ ext
  ++ lit " (mime=" ++ mime ++ lit ")".

(** [main()] with [--path] and [--mime] parsed: what it writes to standard
    output, or the exception that ends it. *)
Definition main (w : world) (path mime : str) : result str :=
  let ext := snd (splitext (lower path)) in
  if Py.eqb ext (lit ".docx") then
    text <- Docx.extract_docx (zipfile_at w path) ;; Ok (print text)
  else if Py.eqb ext (lit ".pdf") then
    text <- Pdf.extract_pdf (pdf_at w path) ;; Ok (print text)
  else if Py.eqb ext (lit ".pptx") then
    text <- Pptx.extract_pptx (zipfile_at w path) ;; Ok (print text)
  else if Py.eqb ext (lit ".doc") then
    text <- fst (Doc.extract_doc (host w) path) ;; Ok (print text)
  else Raise (SystemExit (UNSUPPORTED ext mime)).

(** Exit status of the process: 0 when [main] returns; 1 when it ends by
    an exception, [SystemExit] with a message included. *)
Definition exit_status (r : result str) : nat :=
  match r with
  | Ok _ => 0
  | Raise _ => 1
  end.

(** Standard error when the process ends by [SystemExit(msg)]: the
    message and a newline. *)
Definition stderr_of_exit (msg : str) : str := msg ++ [LF].

Definition supported (ext : str) : bool :=
  Py.eqb ext (lit ".docx") || Py.eqb ext (lit ".pdf")
  || Py.eqb ext (lit ".pptx") || Py.eqb ext (lit ".doc").

(** The process ends by [SystemExit] with a message that holds the
    extension of the path as it was given, and the MIME hint. *)
Definition reports_given_extension (w : world) (path mime : str) : Prop :=
  exists msg,
    main w path mime = Raise (SystemExit msg) /\
    contains (snd (splitext path)) msg = true /\
    contains mime msg = true.

End Main.

(** ** Sample inputs *)

Module Sample.

Definition node (tag : str) (children : list ET.Element) : ET.Element :=
  ET.Elem tag None children.

Definition leaf (tag : str) (text : string) : ET.Element :=
  ET.Elem tag (Some (lit text)) [].

(** Three paragraphs: a run with a tab, a blank one, a run with a break. *)
Definition document : ET.Element :=
  node (Docx.W "document")
    [node (Docx.W "body")
       [node (Docx.W "p")
          [node (Docx.W "r")
             [leaf (Docx.W "t") "Hello"; node (Docx.W "tab") [];
              leaf (Docx.W "t") "world "]];
        node (Docx.W "p") [node (Docx.W "r") [leaf (Docx.W "t") "  "]];
        node (Docx.W "p")
          [node (Docx.W "r")
             [leaf (Docx.W "t") "line"; node (Docx.W "br") [];
              leaf (Docx.W "t") "two"]]]].

Definition docx : Zip.opened :=
  Zip.Opened [(lit "[Content_Types].xml", ET.Malformed);
              (lit "word/document.xml", ET.Xml document)].

Definition docx_text : str :=
  lit "Hello" ++ [TAB] ++ lit "world" ++ [LF] ++ lit "line" ++ [LF]
  ++ lit "two".

Definition slide_xml (texts : list string) : ET.member :=
  ET.Xml (node (lit "{http://schemas.openxmlformats.org/presentationml/2006/main}sld")
            (map (leaf (Pptx.A "t")) texts)).

(** Slides 1, 10 and 2, listed in the lexical order of their names. *)
Definition deck : Zip.ZipFile :=
  [(lit "ppt/slides/slide1.xml", slide_xml ["one"%string]);
   (lit "ppt/slides/slide10.xml", slide_xml ["ten"%string]);
   (lit "ppt/slides/slide2.xml", slide_xml ["two"%string]);
   (lit "ppt/slides/_rels/slide1.xml.rels", ET.Malformed)].


Definition deck_text : str :=
  lit "one" ++ [LF; LF] ++ lit "two" ++ [LF; LF] ++ lit "ten".

(** The second slide holds one text node of a single space. *)
Definition deck_with_blank_slide : Zip.ZipFile :=
  [(lit "ppt/slides/slide1.xml", slide_xml ["A"%string]);
   (lit "ppt/slides/slide2.xml", slide_xml [" "%string]);
   (lit "ppt/slides/slide3.xml", slide_xml ["B"%string])].

(** A slide whose number is written with SUPERSCRIPT TWO (U+00B2). *)
Definition deck_with_superscript : Zip.ZipFile :=
  [(lit "ppt/slides/slide" ++ [ascii_of_nat 178] ++ lit ".xml",
    slide_xml ["A"%string])].

(** A reader of four pages; extraction of the second one raises. *)
Definition reader : Pdf.PdfReader :=
  {| Pdf.pages := [Pdf.Extracted (Some (lit " first "));
                   Pdf.ExtractRaises;
                   Pdf.Extracted None;
                   Pdf.Extracted (Some (lit "fourth"))];
     Pdf.pages_raise := false |}.

Definition pdf : Pdf.libraries :=
  {| Pdf.pypdf := Pdf.Constructed reader; Pdf.PyPDF2 := Pdf.NotInstalled |}.

Definition pdf_text : str := lit "first" ++ [LF; LF] ++ lit "fourth".

(** Both libraries installed; both constructors reject the file. *)
Definition rejected_pdf : Pdf.libraries :=
  {| Pdf.pypdf := Pdf.ConstructorRaises;
     Pdf.PyPDF2 := Pdf.ConstructorRaises |}.

(** A reader is built, and walking its pages raises after the first. *)
Definition broken_pages_pdf : Pdf.libraries :=
  {| Pdf.pypdf :=
       Pdf.Constructed {| Pdf.pages := [Pdf.Extracted (Some (lit "first"))];
                          Pdf.pages_raise := true |};
     Pdf.PyPDF2 := Pdf.NotInstalled |}.

(** A host with none of the tools. *)
Definition bare_host : Doc.host :=
  {| Doc.system := lit "Linux";
     Doc.path_exists := fun _ => false;
     Doc.call := fun _ => 1;
     Doc.run := fun _ => {| Doc.returncode := 127; Doc.stdout := [] |};
     Doc.tempdir := lit "/tmp/tmpdoc";
     Doc.listdir := fun _ => [];
     Doc.read := fun _ => [] |}.

(** A host with antiword and the office suite; antiword exits with
    [status] and prints a line. *)
Definition antiword_host (status : nat) : Doc.host :=
  {| Doc.system := lit "Linux";
     Doc.path_exists := fun _ => false;
     Doc.call := fun _ => 0;
     Doc.run := fun _ => {| Doc.returncode := status;
                            Doc.stdout := lit " legacy text" ++ [LF] |};
     Doc.tempdir := lit "/tmp/tmpdoc";
     Doc.listdir := fun _ => [lit "memo.txt"];
     Doc.read := fun _ => lit "converted" |}.

(** A paragraph with a text box that holds a paragraph of its own. *)
Definition inner_paragraph : ET.Element :=
  node (Docx.W "p") [node (Docx.W "r") [leaf (Docx.W "t") "Inner"]].

Definition outer_paragraph : ET.Element :=
  node (Docx.W "p")
    [node (Docx.W "r") [leaf (Docx.W "t") "Outer "];
     node (Docx.W "txbxContent") [inner_paragraph]].

Definition boxed_document : ET.Element :=
  node (Docx.W "document") [node (Docx.W "body") [outer_paragraph]].

(** A paragraph of a tab, a break and a run of spaces. *)
Definition blank_paragraph : ET.Element :=
  node (Docx.W "p")
    [node (Docx.W "r")
       [node (Docx.W "tab") []; node (Docx.W "br") [];
        leaf (Docx.W "t") "  "]].

(** A host with the office suite only; the conversion exits with 0 and
    leaves the files [produced] in the output directory. *)
Definition office_host (produced : list str) : Doc.host :=
  {| Doc.system := lit "Darwin";
     Doc.path_exists := fun _ => false;
     Doc.call := fun cmd =>
       if Py.eqb (nth 2 cmd []) (lit "libreoffice") then 0 else 1;
     Doc.run := fun _ => {| Doc.returncode := 0; Doc.stdout := [] |};
     Doc.tempdir := lit "/tmp/tmpdoc";
     Doc.listdir := fun _ => produced;
     Doc.read := fun p => lit " read from " ++ p ++ [LF] |}.

Definition world : Main.world :=
  {| Main.zipfile_at := fun _ => docx;
     Main.pdf_at := fun _ => pdf;
     Main.host := bare_host |}.

End Sample.

(** * Properties *)

(** ** Strings *)

Section Strings.

Lemma eqb_char_refl (c : ascii) : eqb_char c c = true.
Proof. apply Ascii.eqb_refl. Qed.

Lemma eqb_char_eq (a b : ascii) : eqb_char a b = true <-> a = b.
Proof. apply Ascii.eqb_eq. Qed.

Lemma eqb_refl (s : str) : Py.eqb s s = true.
Proof.
  induction s as [|c s IH]; simpl; [reflexivity|].
  now rewrite eqb_char_refl.
Qed.

Lemma eqb_eq (a b : str) : Py.eqb a b = true <-> a = b.
Proof.
  split; [|intros ->; apply eqb_refl].
  revert b; induction a as [|x a IH]; intros [|y b]; simpl;
    try discriminate; [reflexivity|].
  intros H. apply andb_true_iff in H as [Hc Hs].
  apply eqb_char_eq in Hc. apply IH in Hs. now subst.
Qed.

Lemma eqb_neq (a b : str) : Py.eqb a b = false <-> a <> b.
Proof.
  rewrite <- eqb_eq. destruct (Py.eqb a b); split; congruence.
Qed.

Lemma startswith_app (p s : str) : startswith (p ++ s) p = true.
Proof.
  induction p as [|c p IH]; simpl; [now destruct s|].
  now rewrite eqb_char_refl.
Qed.

Lemma contains_unfold (needle hay : str) :
  contains needle hay =
  startswith hay needle
  || match hay with
     | [] => false
     | _ :: r => contains needle r
     end.
Proof. destruct hay; reflexivity. Qed.

Lemma contains_app (needle a b : str) :
  contains needle (a ++ needle ++ b) = true.
Proof.
  induction a as [|c a IH].
  - rewrite contains_unfold. simpl app. now rewrite startswith_app.
  - rewrite contains_unfold. cbn [app]. rewrite IH. apply orb_true_r.
Qed.

(** *** Trimming *)

Lemma lstrip_length (s : str) : List.length (lstrip s) <= List.length s.
Proof.
  induction s as [|x s IH]; simpl; [lia|].
  destruct (isspace x); simpl; lia.
Qed.

Lemma lstrip_idem (s : str) : lstrip (lstrip s) = lstrip s.
Proof.
  induction s as [|c s IH]; simpl; [reflexivity|].
  destruct (isspace c) eqn:E; [exact IH|].
  simpl. now rewrite E.
Qed.

Lemma lstrip_snoc (s : str) (c : ascii) :
  isspace c = false -> lstrip (s ++ [c]) = lstrip s ++ [c].
Proof.
  intros Hc. induction s as [|x s IH]; simpl.
  - now rewrite Hc.
  - destruct (isspace x); [exact IH | reflexivity].
Qed.

Lemma rstrip_idem (s : str) : rstrip (rstrip s) = rstrip s.
Proof.
  unfold rstrip. now rewrite rev_involutive, lstrip_idem.
Qed.

Lemma lstrip_rstrip_fixed (s : str) :
  lstrip s = s -> lstrip (rstrip s) = rstrip s.
Proof.
  destruct s as [|c r]; [reflexivity|].
  simpl. destruct (isspace c) eqn:E.
  - intros H. exfalso.
    pose proof (lstrip_length r) as Hlen.
    rewrite H in Hlen. simpl in Hlen. lia.
  - intros _. unfold rstrip. simpl rev.
    rewrite lstrip_snoc by exact E.
    rewrite rev_app_distr. simpl. now rewrite E.
Qed.

Lemma lstrip_strip (s : str) : lstrip (strip s) = strip s.
Proof. unfold strip. apply lstrip_rstrip_fixed, lstrip_idem. Qed.

Lemma rstrip_strip (s : str) : rstrip (strip s) = strip s.
Proof. unfold strip. apply rstrip_idem. Qed.

Lemma strip_idem (s : str) : strip (strip s) = strip s.
Proof.
  unfold strip at 1. now rewrite lstrip_strip, rstrip_strip.
Qed.

Lemma lstrip_fixed_head (s : str) :
  lstrip s = s -> forall c r, s = c :: r -> isspace c = false.
Proof.
  intros H c r ->. simpl in H.
  destruct (isspace c) eqn:E; [|reflexivity].
  exfalso.
  pose proof (lstrip_length r) as Hlen.
  rewrite H in Hlen. simpl in Hlen. lia.
Qed.

Lemma rstrip_fixed_last (s : str) :
  rstrip s = s -> forall c r, s = r ++ [c] -> isspace c = false.
Proof.
  unfold rstrip. intros H c r ->.
  apply (f_equal (@rev ascii)) in H.
  rewrite rev_involutive in H.
  rewrite rev_app_distr in H. simpl in H.
  eapply lstrip_fixed_head; [|reflexivity].
  simpl. exact H.
Qed.

End Strings.

(** ** The word-processing extractor *)

Section DocxFacts.

Import Docx.

Lemma W_t_tab : Py.eqb (W "t") (W "tab") = false.
Proof. vm_compute. reflexivity. Qed.

Lemma W_t_br : Py.eqb (W "t") (W "br") = false.
Proof. vm_compute. reflexivity. Qed.

Lemma W_t_cr : Py.eqb (W "t") (W "cr") = false.
Proof. vm_compute. reflexivity. Qed.

Lemma W_document_p : Py.eqb (W "document") (W "p") = false.
Proof. vm_compute. reflexivity. Qed.

(** One step of the inner loop appends what the node renders to. *)
Lemma visit_render (parts : list str) (node : ET.Element) :
  List.concat (visit parts node) = List.concat parts ++ spec_render node.
Proof.
  unfold visit, spec_render.
  destruct (Py.eqb (ET.tag node) (W "t")) eqn:Et.
  - apply eqb_eq in Et. rewrite Et, W_t_tab, W_t_br, W_t_cr.
    destruct (ET.text node) as [[|c t]|]; simpl;
      rewrite ?concat_app, ?app_nil_r; simpl; rewrite ?app_nil_r; reflexivity.
  - simpl.
    destruct (Py.eqb (ET.tag node) (W "tab"));
      [rewrite concat_app; reflexivity|].
    destruct (Py.eqb (ET.tag node) (W "br")); simpl;
      [rewrite concat_app; reflexivity|].
    destruct (Py.eqb (ET.tag node) (W "cr"));
      [rewrite concat_app; reflexivity|].
    now rewrite app_nil_r.
Qed.

Lemma visit_fold (nodes : list ET.Element) (parts : list str) :
  List.concat (fold_left visit nodes parts) =
  List.concat parts ++ List.concat (map spec_render nodes).
Proof.
  revert parts. induction nodes as [|n nodes IH]; intros parts; simpl.
  - now rewrite app_nil_r.
  - now rewrite IH, visit_render, app_assoc.
Qed.

Lemma collect_spec (paragraphs : list str) (p : ET.Element) :
  collect paragraphs p =
  paragraphs ++ filter truthy [spec_paragraph p].
Proof.
  unfold collect, spec_paragraph. rewrite visit_fold. simpl.
  destruct (truthy _); [reflexivity | now rewrite app_nil_r].
Qed.

Lemma collect_fold (ps : list ET.Element) (paragraphs : list str) :
  fold_left collect ps paragraphs =
  paragraphs ++ filter truthy (map spec_paragraph ps).
Proof.
  revert paragraphs. induction ps as [|p ps IH]; intros paragraphs.
  - simpl. now rewrite app_nil_r.
  - cbn [fold_left map]. rewrite IH, collect_spec.
    rewrite <- app_assoc. f_equal.
    simpl. destruct (truthy (spec_paragraph p)); reflexivity.
Qed.

(** Below a root that is not itself a paragraph, [findall] meets every
    paragraph node of the tree. *)
Lemma findall_paragraph_nodes (root : ET.Element) :
  ET.tag root = W "document" ->
  ET.findall (W "p") root = paragraph_nodes root.
Proof.
  destruct root as [tg tx cs]. simpl. intros ->.
  unfold ET.findall, paragraph_nodes. cbn [ET.iter ET.children filter ET.tag].
  now rewrite W_document_p.
Qed.

End DocxFacts.

(** C1.  For a well-formed word-processing document the extractor returns
    the text the specification describes: the main document entry is read,
    every paragraph node is taken in document order, the text runs, tabs
    and breaks below it are concatenated, each paragraph is trimmed, empty
    ones are dropped, the rest are joined by single newlines and the whole
    is trimmed. *)
Theorem docx_extracts_paragraphs (file : Zip.opened) (root : ET.Element) :
  Docx.well_formed file root ->
  Docx.extract_docx file = Ok (Docx.spec_docx root).
Proof.
  intros (zf & -> & Hget & Htag).
  unfold Docx.extract_docx, Zip.read. cbn [Zip.open bind].
  rewrite Hget. cbn [ET.fromstring bind].
  rewrite collect_fold, findall_paragraph_nodes by exact Htag.
  reflexivity.
Qed.

(** ** Sorting by a key *)

Section SortFacts.

Import Pptx.

Variable T : Type.
Variable key : T -> result N.

Lemma keyed_spec (l : list T) (kl : list (N * T)) :
  keyed key l = Ok kl ->
  map snd kl = l /\ Forall (fun p => key (snd p) = Ok (fst p)) kl.
Proof.
  revert kl. induction l as [|x l IH]; intros kl; simpl.
  - intros [= <-]. split; [reflexivity | constructor].
  - destruct (key x) as [k|e] eqn:Ek; simpl; [|discriminate].
    destruct (keyed key l) as [kr|e] eqn:Er; simpl; [|discriminate].
    intros [= <-]. destruct (IH kr eq_refl) as [Hm Hf].
    split; [simpl; now rewrite Hm | constructor; [exact Ek | exact Hf]].
Qed.


Lemma insert_perm (x : N * T) (l : list (N * T)) :
  Permutation (insert x l) (x :: l).
Proof.
  induction l as [|y l IH]; simpl; [reflexivity|].
  destruct (fst x <=? fst y)%N; [reflexivity|].
  rewrite IH. apply perm_swap.
Qed.

Lemma stable_sort_perm (l : list (N * T)) : Permutation (stable_sort l) l.
Proof.
  induction l as [|x l IH]; simpl; [reflexivity|].
  rewrite insert_perm. now constructor.
Qed.

Lemma insert_sorted (x : N * T) (l : list (N * T)) :
  StronglySorted (@key_le T) l -> StronglySorted (@key_le T) (insert x l).
Proof.
  induction 1 as [|y l Hs IH Hy]; simpl.
  - repeat constructor.
  - destruct (fst x <=? fst y)%N eqn:E.
    + apply N.leb_le in E. constructor; [now constructor|].
      constructor; [exact E|].
      eapply Forall_impl; [|exact Hy].
      intros q Hq. unfold key_le in *. lia.
    + apply N.leb_gt in E. constructor; [exact IH|].
      eapply Permutation_Forall; [symmetry; apply insert_perm|].
      constructor; [unfold key_le; lia | exact Hy].
Qed.

Lemma stable_sort_sorted (l : list (N * T)) :
  StronglySorted (@key_le T) (stable_sort l).
Proof.
  induction l as [|x l IH]; simpl; [constructor|].
  now apply insert_sorted.
Qed.

(** Items of one key keep their order. *)
Lemma insert_stable (k : N) (x : N * T) (l : list (N * T)) :
  filter (fun p => (fst p =? k)%N) (insert x l) =
  filter (fun p => (fst p =? k)%N) (x :: l).
Proof.
  induction l as [|y l IH]; [reflexivity|].
  cbn [insert]. destruct (fst x <=? fst y)%N eqn:E; [reflexivity|].
  apply N.leb_gt in E.
  cbn [filter] in *. rewrite IH.
  destruct (fst x =? k)%N eqn:Ex; [|reflexivity].
  apply N.eqb_eq in Ex.
  destruct (fst y =? k)%N eqn:Ey; [|reflexivity].
  apply N.eqb_eq in Ey. lia.
Qed.

Lemma stable_sort_stable (k : N) (l : list (N * T)) :
  filter (fun p => (fst p =? k)%N) (stable_sort l) =
  filter (fun p => (fst p =? k)%N) l.
Proof.
  induction l as [|x l IH]; [reflexivity|].
  cbn [stable_sort fold_right]. rewrite insert_stable.
  cbn [filter]. fold (stable_sort l). now rewrite IH.
Qed.

(** A stable sort has one possible result: two sorted lists that list the
    items of every key in the same order are equal. *)
Lemma stable_sorted_unique (l1 l2 : list (N * T)) :
  StronglySorted (@key_le T) l1 ->
  StronglySorted (@key_le T) l2 ->
  (forall k, filter (fun p => (fst p =? k)%N) l1 =
             filter (fun p => (fst p =? k)%N) l2) ->
  l1 = l2.
Proof.
  intros H1. revert l2.
  induction H1 as [|x l1 Hs1 IH Hx]; intros l2 H2 Hk.
  - destruct l2 as [|y l2]; [reflexivity|].
    specialize (Hk (fst y)). cbn [filter] in Hk.
    rewrite N.eqb_refl in Hk. discriminate.
  - destruct l2 as [|y l2].
    { specialize (Hk (fst x)). cbn [filter] in Hk.
      rewrite N.eqb_refl in Hk. discriminate. }
    assert (Hxy : x = y).
    { destruct (N.eq_dec (fst x) (fst y)) as [E|E].
      - pose proof (Hk (fst x)) as Hkx. cbn [filter] in Hkx.
        rewrite N.eqb_refl in Hkx.
        rewrite <- E, N.eqb_refl in Hkx. congruence.
      - exfalso.
        assert (Hy1 : In y (x :: l1)).
        { pose proof (Hk (fst y)) as Hky. cbn [filter] in Hky.
          rewrite N.eqb_refl in Hky.
          assert (Hin : In y (filter (fun p => (fst p =? fst y)%N) (x :: l1))).
          { cbn [filter]. rewrite Hky. now left. }
          now apply filter_In in Hin as [Hin _]. }
        assert (Hx2 : In x (y :: l2)).
        { pose proof (Hk (fst x)) as Hkx. cbn [filter] in Hkx.
          rewrite N.eqb_refl in Hkx.
          assert (Hin : In x (filter (fun p => (fst p =? fst x)%N) (y :: l2))).
          { cbn [filter]. rewrite <- Hkx. now left. }
          now apply filter_In in Hin as [Hin _]. }
        inversion H2 as [|? ? _ Hy]; subst.
        rewrite Forall_forall in Hx, Hy.
        destruct Hy1 as [->|Hy1]; [now apply E|].
        destruct Hx2 as [->|Hx2]; [now apply E|].
        apply Hx in Hy1. apply Hy in Hx2. unfold key_le in *. lia. }
    subst y. f_equal. apply IH.
    + now inversion H2.
    + intros k. specialize (Hk k). cbn [filter] in Hk.
      destruct (fst x =? k)%N; congruence.
Qed.

(** So any sort that is stable returns what [stable_sort] returns. *)
Lemma stable_sort_unique (l sorted : list (N * T)) :
  StronglySorted (@key_le T) sorted ->
  (forall k, filter (fun p => (fst p =? k)%N) sorted =
             filter (fun p => (fst p =? k)%N) l) ->
  sorted = stable_sort l.
Proof.
  intros Hs Hk. apply stable_sorted_unique.
  - exact Hs.
  - apply stable_sort_sorted.
  - intros k. now rewrite Hk, stable_sort_stable.
Qed.

Lemma sorted_by_key (q : list (N * T)) :
  StronglySorted (@key_le T) q ->
  Forall (fun p => key (snd p) = Ok (fst p)) q ->
  StronglySorted (by_key key) (map snd q).
Proof.
  induction 1 as [|p q Hs IH Hp]; intros Hf; simpl; [constructor|].
  inversion Hf as [|? ? Hk Hq]; subst.
  constructor; [now apply IH|].
  apply Forall_map, Forall_forall. intros r Hr.
  rewrite Forall_forall in Hp, Hq.
  exists (fst p), (fst r). repeat split; auto. now apply Hp.
Qed.

Lemma filter_keyed (k : N) (q : list (N * T)) :
  Forall (fun p => key (snd p) = Ok (fst p)) q ->
  filter (key_is key k) (map snd q) =
  map snd (filter (fun p => (fst p =? k)%N) q).
Proof.
  induction 1 as [|p q Hp _ IH]; simpl; [reflexivity|].
  unfold key_is at 1. rewrite Hp.
  destruct (fst p =? k)%N; simpl; now rewrite IH.
Qed.

(** What [l.sort(key=f)] leaves in [l] when no key raises. *)
Lemma sort_spec (l names : list T) :
  sort key l = Ok names ->
  Permutation names l /\
  StronglySorted (by_key key) names /\
  (forall k, filter (key_is key k) names = filter (key_is key k) l).
Proof.
  unfold sort. destruct (keyed key l) as [kl|e] eqn:Ek; simpl; [|discriminate].
  intros [= <-]. destruct (keyed_spec _ Ek) as [Hm Hf].
  assert (Hf' : Forall (fun p => key (snd p) = Ok (fst p)) (stable_sort kl)).
  { eapply Permutation_Forall; [symmetry; apply stable_sort_perm | exact Hf]. }
  split; [|split].
  - rewrite <- Hm. apply Permutation_map, stable_sort_perm.
  - apply sorted_by_key; [apply stable_sort_sorted | exact Hf'].
  - intros k. rewrite filter_keyed by exact Hf'.
    rewrite stable_sort_stable, <- filter_keyed by exact Hf.
    now rewrite Hm.
Qed.


End SortFacts.

(** ** The presentation extractor *)

Section PptxFacts.

Import Pptx.




Lemma slide_appends (zf : Zip.ZipFile) (acc acc' : list str) (name : str) :
  slide zf acc name = Ok acc' -> acc' = acc ++ blocks_of zf name.
Proof.
  unfold blocks_of, slide.
  destruct (Zip.read zf name) as [xml|]; cbn [bind]; [|discriminate].
  destruct (ET.fromstring xml) as [root|]; cbn [bind]; [|discriminate].
  destruct (truthy (texts_of root)); intros [= <-];
    [reflexivity | now rewrite app_nil_r].
Qed.

(** The blocks of the output follow the order of the slide names. *)
Lemma for_each_slide (zf : Zip.ZipFile) (names : list str)
    (acc blocks : list str) :
  for_each (slide zf) names acc = Ok blocks ->
  blocks = acc ++ flat_map (blocks_of zf) names.
Proof.
  revert acc. induction names as [|n names IH]; intros acc; cbn [for_each].
  - intros [= <-]. cbn. now rewrite app_nil_r.
  - destruct (slide zf acc n) as [acc'|] eqn:E; cbn [bind]; [|discriminate].
    intros H. apply IH in H. apply slide_appends in E. subst.
    cbn [flat_map]. now rewrite app_assoc.
Qed.


End PptxFacts.


(** ** The PDF extractor *)

Section PdfFacts.

Import Pdf.

Lemma add_page_fold (ps : list page) (pages_text : list str) :
  fold_left add_page ps pages_text =
  pages_text ++ filter truthy (map strip (flat_map returned ps)).
Proof.
  revert pages_text. induction ps as [|p ps IH]; intros pages_text; simpl.
  - now rewrite app_nil_r.
  - rewrite IH. unfold add_page.
    destruct p as [|t]; simpl; [reflexivity|].
    destruct (truthy (strip (or_empty t))); [|reflexivity].
    now rewrite <- app_assoc.
Qed.

Lemma spec_pdf_skips_failure (before after : list page) :
  spec_pdf (before ++ ExtractRaises :: after) = spec_pdf (before ++ after).
Proof.
  unfold spec_pdf. now rewrite !flat_map_app.
Qed.

Lemma extract_pdf_reader (env : libraries) (reader : PdfReader) :
  open_reader env = Ok reader ->
  extract_pdf env =
  if pages_raise reader then Raise LibraryError
  else Ok (spec_pdf (pages reader)).
Proof.
  intros H. unfold extract_pdf. rewrite H. cbn [bind].
  now rewrite add_page_fold.
Qed.

End PdfFacts.

(** C3.  When a backend has built a reader and its pages can be walked, the
    extractor returns, whatever the single pages do: a page whose text
    extraction raises counts as an empty page, and the result is the
    trimmed non-empty texts of the other pages joined by blank lines. *)
Theorem pdf_page_failure_is_empty_page (env : Pdf.libraries)
    (reader : Pdf.PdfReader) :
  Pdf.open_reader env = Ok reader ->
  Pdf.pages_raise reader = false ->
  Pdf.extract_pdf env = Ok (Pdf.spec_pdf (Pdf.pages reader)) /\
  (forall before after,
      Pdf.pages reader = before ++ Pdf.ExtractRaises :: after ->
      Pdf.extract_pdf env = Ok (Pdf.spec_pdf (before ++ after)) /\
      Pdf.extract_pdf env =
      Ok (Pdf.spec_pdf (before ++ Pdf.Extracted (Some []) :: after))).
Proof.
  intros Hopen Hwalk.
  rewrite (extract_pdf_reader _ Hopen), Hwalk.
  split; [reflexivity|].
  intros before after ->. rewrite spec_pdf_skips_failure.
  split; [reflexivity|].
  unfold Pdf.spec_pdf. rewrite !flat_map_app. simpl.
  rewrite !map_app, !filter_app. reflexivity.
Qed.

(** C10.  Construction with the first library is retried with the second
    whatever made it raise; the missing-library error is raised exactly
    when both constructions raise; and it is raised on a host where both
    libraries are installed when both reject the file. *)
Theorem pdf_missing_library_iff_both_raise :
  (forall env e,
      Pdf.construct (Pdf.pypdf env) = Raise e ->
      Pdf.open_reader env =
      match Pdf.construct (Pdf.PyPDF2 env) with
      | Ok reader => Ok reader
      | Raise _ => Raise (RuntimeError Pdf.MISSING)
      end) /\
  (forall env,
      Pdf.extract_pdf env = Raise (RuntimeError Pdf.MISSING) <->
      (exists e1 e2, Pdf.construct (Pdf.pypdf env) = Raise e1 /\
                     Pdf.construct (Pdf.PyPDF2 env) = Raise e2)) /\
  (exists env,
      Pdf.installed (Pdf.pypdf env) = true /\
      Pdf.installed (Pdf.PyPDF2 env) = true /\
      Pdf.extract_pdf env = Raise (RuntimeError Pdf.MISSING)).
Proof.
  split; [|split].
  - intros env e H. unfold Pdf.open_reader. now rewrite H.
  - intros env. unfold Pdf.extract_pdf, Pdf.open_reader.
    destruct (Pdf.construct (Pdf.pypdf env)) as [r1|e1];
      [|destruct (Pdf.construct (Pdf.PyPDF2 env)) as [r2|e2]]; cbn [bind].
    + split.
      * destruct (Pdf.pages_raise r1); discriminate.
      * intros (e1 & e2 & H & _). discriminate.
    + split.
      * destruct (Pdf.pages_raise r2); discriminate.
      * intros (e1' & e2 & _ & H). discriminate.
    + split; [|reflexivity]. intros _. now exists e1, e2.
  - exists {| Pdf.pypdf := Pdf.ConstructorRaises;
              Pdf.PyPDF2 := Pdf.ConstructorRaises |}.
    repeat split.
Qed.

(** ** The legacy extractor *)

Ltac doc_unfold :=
  cbv beta iota zeta fix delta
    [Doc.extract_doc Doc.extract_doc_via_system_tools Doc.find_soffice
     Doc.bindM Doc.os_path_exists Doc.subprocess_call Doc._run
     Doc.os_listdir Doc.read_decoded Doc.emit Doc.ret Doc.raise app].

Ltac doc_unfold_in H :=
  cbv beta iota zeta fix delta
    [Doc.extract_doc Doc.extract_doc_via_system_tools Doc.find_soffice
     Doc.bindM Doc.os_path_exists Doc.subprocess_call Doc._run
     Doc.os_listdir Doc.read_decoded Doc.emit Doc.ret Doc.raise app] in H.

(** The answers of the host to the probes, one case each. *)
Ltac doc_probes h :=
  destruct (Py.eqb (Doc.system h) (lit "Darwin")) eqn:Hsystem;
  destruct (Doc.path_exists h Doc.TEXTUTIL) eqn:Hexists;
  destruct (Doc.call h (Doc.which (lit "antiword")) =? 0) eqn:Hantiword;
  destruct (Doc.call h (Doc.which (lit "soffice")) =? 0) eqn:Hsoffice;
  destruct (Doc.call h (Doc.which (lit "libreoffice")) =? 0) eqn:Hlibre.

Section DocFacts.

Variable h : Doc.host.
Variable path : str.

Lemma unable_names_remedies :
  contains (lit "Convert to .docx") Doc.UNABLE = true /\
  contains (lit "install 'antiword'") Doc.UNABLE = true /\
  contains (lit "LibreOffice") Doc.UNABLE = true.
Proof. repeat split; vm_compute; reflexivity. Qed.

Lemma extract_doc_none_present :
  Doc.textutil_present h = false ->
  Doc.antiword_present h = false ->
  Doc.office_present h = false ->
  fst (Doc.extract_doc h path) = Raise (RuntimeError Doc.UNABLE).
Proof.
  unfold Doc.textutil_present, Doc.antiword_present, Doc.office_present.
  doc_unfold. doc_probes h; cbn [andb orb fst]; intros; try discriminate;
    reflexivity.
Qed.

End DocFacts.

(** Replace the probes by the answers the case at hand fixes for them. *)
Ltac doc_present :=
  cbv beta iota delta
    [Doc.present Doc.textutil_present Doc.antiword_present
     Doc.office_present];
  repeat match goal with
         | E : ?c = _ |- context [?c] => rewrite E
         end;
  cbn [andb orb].

Ltac doc_present_in H :=
  cbv beta iota delta
    [Doc.present Doc.textutil_present Doc.antiword_present
     Doc.office_present] in H;
  repeat match goal with
         | E : ?c = _ |- _ =>
             tryif constr_eq E H then fail else
               match type of H with
               | context [c] => rewrite E in H
               end
         end;
  cbn [andb orb] in H.

(** C4.  In every run of the legacy extractor: a command that exits
    non-zero ends the run with that failure, and nothing is tried after
    it; a candidate is probed or invoked only when every candidate before
    it in the list is absent; and the first candidate that is present is
    invoked. *)
Theorem doc_failure_propagates (h : Doc.host) (path : str) :
  (forall cmd,
      In (Doc.Run cmd) (snd (Doc.extract_doc h path)) ->
      Doc.returncode (Doc.run h cmd) <> 0 ->
      fst (Doc.extract_doc h path) = Raise (CalledProcessError cmd) /\
      exists before, snd (Doc.extract_doc h path) = before ++ [Doc.Run cmd]) /\
  (forall c c',
      Doc.tried (snd (Doc.extract_doc h path)) c ->
      Doc.earlier c' c -> Doc.present h c' = false) /\
  (forall c,
      Doc.present h c = true ->
      (forall c', Doc.earlier c' c -> Doc.present h c' = false) ->
      Doc.invoked (snd (Doc.extract_doc h path)) c).
Proof.
  destruct (Doc.extract_doc h path) as [r tr] eqn:E.
  doc_unfold_in E. cbn [fst snd].
  repeat match type of E with
         | context [if ?c then _ else _] => destruct c eqn:?
         | context [match ?c with [] => _ | _ :: _ => _ end] =>
             destruct c eqn:?
         end;
    injection E as <- <-.
  all: split; [|split].
  all: try (intros cmd Hin Hrc; cbn [In] in Hin;
            repeat match type of Hin with
                   | _ \/ _ => destruct Hin as [Hin|Hin]
                   | False => destruct Hin
                   end;
            try discriminate Hin; injection Hin as <-;
            try (match goal with
                 | Hz : (_ =? 0) = true |- _ =>
                     apply Nat.eqb_eq in Hz; contradiction
                 end);
            (split; [reflexivity|]);
            match goal with
            | |- exists b, ?tr = _ => exists (removelast tr); reflexivity
            end).
  all: try (intros c c' (ev & Hin & Ht) Hlt; cbn [In] in Hin;
            repeat match type of Hin with
                   | _ \/ _ => destruct Hin as [Hin|Hin]
                   | False => destruct Hin
                   end;
            subst ev; vm_compute in Ht; injection Ht as <-;
            destruct c'; unfold Doc.earlier in Hlt; cbn [Doc.rank] in Hlt;
            try lia; doc_present; reflexivity).
  all: intros c Hp Hearlier;
    assert (H0 : forall c', Doc.rank c' < Doc.rank c ->
                            Doc.present h c' = false) by exact Hearlier;
    destruct c; cbn [Doc.rank] in H0;
    try (assert (Ht : Doc.present h Doc.Textutil = false)
          by (apply H0; cbn; lia));
    try (assert (Ha : Doc.present h Doc.Antiword = false)
          by (apply H0; cbn; lia));
    clear H0 Hearlier;
    doc_present_in Hp; try doc_present_in Ht; try doc_present_in Ha;
    try discriminate Hp; try discriminate Ht; try discriminate Ha;
    eexists; (split; [cbn [In]; repeat first [left; reflexivity | right]
                     | vm_compute; reflexivity]).
Qed.

Lemma docx_extracts_paragraphs_witness :
  Docx.well_formed Sample.docx Sample.document /\
  Docx.extract_docx Sample.docx = Ok (Docx.spec_docx Sample.document).
Proof.
  assert (H : Docx.well_formed Sample.docx Sample.document).
  { eexists. repeat split; reflexivity. }
  split; [exact H | exact (docx_extracts_paragraphs H)].
Defined.

(** The sample document: paragraphs in order, the tab and the break as
    characters, the blank paragraph gone. *)
Example docx_sample_text : Docx.extract_docx Sample.docx = Ok Sample.docx_text.
Proof. vm_compute. reflexivity. Qed.


(** Slides 1, 10, 2 of the archive come out as 1, 2, 10. *)
Example pptx_sample_text :
  Pptx.extract_pptx (Zip.Opened Sample.deck) = Ok Sample.deck_text.
Proof. vm_compute. reflexivity. Qed.

(** A digit that is not decimal in a slide name: [int] raises, and the
    exception leaves the sort and the extractor. *)
Example pptx_superscript_index :
  Pptx.extract_pptx (Zip.Opened Sample.deck_with_superscript)
  = Raise ValueError.
Proof. vm_compute. reflexivity. Qed.

(** C9.  The archive with a slide of one blank text node: the slide puts
    an empty block into the list, and the text has two blank-line
    separators in a row between the blocks of its neighbours. *)
Theorem pptx_blank_slide_keeps_empty_block :
  Pptx.slide_blocks Sample.deck_with_blank_slide
  = Ok [lit "A"; []; lit "B"] /\
  Pptx.extract_pptx (Zip.Opened Sample.deck_with_blank_slide)
  = Ok (lit "A" ++ [LF; LF] ++ [LF; LF] ++ lit "B").
Proof. split; vm_compute; reflexivity. Qed.

Lemma pdf_page_failure_is_empty_page_witness :
  Pdf.extract_pdf Sample.pdf = Ok Sample.pdf_text.
Proof.
  exact (proj1 (@pdf_page_failure_is_empty_page Sample.pdf Sample.reader
                  eq_refl eq_refl)).
Defined.

Lemma pdf_missing_library_iff_both_raise_witness :
  Pdf.open_reader Sample.rejected_pdf = Raise (RuntimeError Pdf.MISSING).
Proof.
  exact (proj1 pdf_missing_library_iff_both_raise Sample.rejected_pdf
           LibraryError eq_refl).
Defined.

(** C7.  With both libraries installed and the file rejected by both
    constructors, the extractor raises the missing-library error; and with
    a reader built, a failure while walking its pages ends the extractor
    as well. *)
Theorem pdf_missing_library_error_with_libraries_installed :
  Pdf.installed (Pdf.pypdf Sample.rejected_pdf) = true /\
  Pdf.installed (Pdf.PyPDF2 Sample.rejected_pdf) = true /\
  Pdf.extract_pdf Sample.rejected_pdf = Raise (RuntimeError Pdf.MISSING) /\
  Pdf.extract_pdf Sample.broken_pages_pdf = Raise LibraryError.
Proof. repeat split. Qed.

Lemma doc_failure_propagates_witness :
  fst (Doc.extract_doc (Sample.antiword_host 1) (lit "memo.doc"))
  = Raise (CalledProcessError (Doc.antiword_cmd (lit "memo.doc"))) /\
  Doc.present (Sample.antiword_host 1) Doc.Textutil = false /\
  Doc.invoked (snd (Doc.extract_doc (Sample.antiword_host 1) (lit "memo.doc")))
              Doc.Antiword.
Proof.
  pose proof (doc_failure_propagates (Sample.antiword_host 1) (lit "memo.doc"))
    as (Hfail & Horder & Hfirst).
  assert (Hin : In (Doc.Run (Doc.antiword_cmd (lit "memo.doc")))
                   (snd (Doc.extract_doc (Sample.antiword_host 1)
                           (lit "memo.doc"))))
    by (vm_compute; tauto).
  assert (Hrc : Doc.returncode
                  (Doc.run (Sample.antiword_host 1)
                     (Doc.antiword_cmd (lit "memo.doc"))) <> 0)
    by (vm_compute; discriminate).
  assert (Htried : Doc.tried (snd (Doc.extract_doc (Sample.antiword_host 1)
                                     (lit "memo.doc"))) Doc.Antiword).
  { exists (Doc.Run (Doc.antiword_cmd (lit "memo.doc"))).
    split; [exact Hin | vm_compute; reflexivity]. }
  split; [exact (proj1 (Hfail _ Hin Hrc))|].
  split.
  - apply (Horder Doc.Antiword Doc.Textutil Htried).
    unfold Doc.earlier. cbn. lia.
  - apply Hfirst; [vm_compute; reflexivity|].
    intros c' Hc'. apply (Horder Doc.Antiword c' Htried Hc').
Defined.

(** C5.  On a host where none of the three candidates is present, the
    legacy extractor raises the error whose message tells to convert the
    file to .docx or to install antiword or LibreOffice, and the process
    ends with a non-zero status. *)
Theorem doc_no_backend_names_remedy (h : Doc.host) (path : str) :
  Doc.present h Doc.Textutil = false ->
  Doc.present h Doc.Antiword = false ->
  Doc.present h Doc.Office = false ->
  fst (Doc.extract_doc h path) = Raise (RuntimeError Doc.UNABLE) /\
  (forall w mime,
      Main.host w = h ->
      snd (splitext (lower path)) = lit ".doc" ->
      Main.main w path mime = Raise (RuntimeError Doc.UNABLE) /\
      Main.exit_status (Main.main w path mime) <> 0) /\
  contains (lit "Convert to .docx") Doc.UNABLE = true /\
  contains (lit "install 'antiword'") Doc.UNABLE = true /\
  contains (lit "LibreOffice") Doc.UNABLE = true.
Proof.
  intros Ht Ha Ho.
  pose proof (extract_doc_none_present h path Ht Ha Ho) as Hnone.
  split; [exact Hnone|]. split; [|apply unable_names_remedies].
  intros w mime Hw Hext.
  assert (Hmain : Main.main w path mime = Raise (RuntimeError Doc.UNABLE)).
  { unfold Main.main. rewrite Hext, Hw, Hnone. vm_compute. reflexivity. }
  rewrite Hmain. split; [reflexivity | discriminate].
Qed.

Lemma doc_no_backend_names_remedy_witness :
  Main.main Sample.world (lit "/srv/in/Memo.DOC") []
  = Raise (RuntimeError Doc.UNABLE).
Proof.
  refine (proj1 (proj1 (proj2
            (@doc_no_backend_names_remedy Sample.bare_host
               (lit "/srv/in/Memo.DOC") _ _ _)) Sample.world [] _ _));
    vm_compute; reflexivity.
Defined.

(** ** Results are trimmed *)

Section Trimmed.

Lemma strip_trimmed (s : str) : trimmed (strip s).
Proof.
  split; [apply strip_idem|]. split.
  - apply lstrip_fixed_head, lstrip_strip.
  - apply rstrip_fixed_last, rstrip_strip.
Qed.

Lemma docx_result_stripped (file : Zip.opened) (s : str) :
  Docx.extract_docx file = Ok s -> exists x, s = strip x.
Proof.
  unfold Docx.extract_docx.
  destruct (Zip.open file) as [zf|]; cbn [bind]; [|discriminate].
  destruct (Zip.read zf _) as [xml|]; cbn [bind]; [|discriminate].
  destruct (ET.fromstring xml) as [root|]; cbn [bind]; [|discriminate].
  intros [= <-]. now eexists.
Qed.

Lemma pptx_result_stripped (file : Zip.opened) (s : str) :
  Pptx.extract_pptx file = Ok s -> exists x, s = strip x.
Proof.
  unfold Pptx.extract_pptx.
  destruct (Zip.open file) as [zf|]; cbn [bind]; [|discriminate].
  destruct (Pptx.slide_blocks zf) as [blocks|]; cbn [bind]; [|discriminate].
  intros [= <-]. now eexists.
Qed.

Lemma pdf_result_stripped (env : Pdf.libraries) (s : str) :
  Pdf.extract_pdf env = Ok s -> exists x, s = strip x.
Proof.
  unfold Pdf.extract_pdf.
  destruct (Pdf.open_reader env) as [reader|]; cbn [bind]; [|discriminate].
  destruct (Pdf.pages_raise reader); [discriminate|].
  intros [= <-]. now eexists.
Qed.

Lemma doc_result_stripped (h : Doc.host) (path s : str) :
  fst (Doc.extract_doc h path) = Ok s -> exists x, s = strip x.
Proof.
  destruct (Doc.extract_doc h path) as [r tr] eqn:E.
  doc_unfold_in E.
  repeat match type of E with
         | context [if ?c then _ else _] => destruct c eqn:?
         | context [match ?c with [] => _ | _ :: _ => _ end] =>
             destruct c eqn:?
         end;
    injection E as <- <-; cbn [fst]; intros [= <-]; now eexists.
Qed.

End Trimmed.

(** C8.  Whatever the input, a string returned by the docx, pptx, pdf or
    legacy extractor is left unchanged by trimming: it neither starts nor
    ends with a white-space character. *)
Theorem extractors_return_trimmed (s : str) :
  (exists file, Docx.extract_docx file = Ok s) \/
  (exists file, Pptx.extract_pptx file = Ok s) \/
  (exists env, Pdf.extract_pdf env = Ok s) \/
  (exists h path, fst (Doc.extract_doc h path) = Ok s) ->
  trimmed s.
Proof.
  intros [[file H]|[[file H]|[[env H]|(h & path & H)]]].
  - apply docx_result_stripped in H as [x ->]. apply strip_trimmed.
  - apply pptx_result_stripped in H as [x ->]. apply strip_trimmed.
  - apply pdf_result_stripped in H as [x ->]. apply strip_trimmed.
  - apply doc_result_stripped in H as [x ->]. apply strip_trimmed.
Qed.

Lemma extractors_return_trimmed_witness :
  trimmed Sample.docx_text /\ trimmed Sample.deck_text /\
  trimmed Sample.pdf_text /\ trimmed (lit "legacy text").
Proof.
  split; [|split; [|split]].
  - apply extractors_return_trimmed. left.
    exists Sample.docx. vm_compute. reflexivity.
  - apply extractors_return_trimmed. right. left.
    exists (Zip.Opened Sample.deck). vm_compute. reflexivity.
  - apply extractors_return_trimmed. right. right. left.
    exists Sample.pdf. vm_compute. reflexivity.
  - apply extractors_return_trimmed. right. right. right.
    exists (Sample.antiword_host 0), (lit "memo.doc"). vm_compute. reflexivity.
Defined.

(** ** The dispatcher *)

Section Dispatch.

Lemma lower_char_separator (c x : ascii) :
  c = SLASH \/ c = DOT ->
  eqb_char (lower_char x) c = eqb_char x c.
Proof.
  intros [-> | ->];
    destruct x as [[] [] [] [] [] [] [] []]; vm_compute; reflexivity.
Qed.

Lemma rsplit_lower (c : ascii) (s : str) :
  c = SLASH \/ c = DOT ->
  rsplit c (lower s) =
  match rsplit c s with
  | Some (b, a) => Some (lower b, lower a)
  | None => None
  end.
Proof.
  intros Hc. induction s as [|x s IH]; [reflexivity|].
  cbn [lower map rsplit]. fold (lower s). rewrite IH.
  destruct (rsplit c s) as [[b a]|]; [reflexivity|].
  rewrite (lower_char_separator x Hc).
  destruct (eqb_char x c); reflexivity.
Qed.

Lemma all_dots_lower (s : str) :
  forallb (fun x => eqb_char x DOT) (lower s) =
  forallb (fun x => eqb_char x DOT) s.
Proof.
  induction s as [|x s IH]; [reflexivity|].
  cbn [lower map forallb]. fold (lower s).
  rewrite IH, (lower_char_separator x (or_intror eq_refl)). reflexivity.
Qed.

(** Lower-casing the path lower-cases its extension and nothing else. *)
Lemma splitext_lower (p : str) :
  splitext (lower p) = (lower (fst (splitext p)), lower (snd (splitext p))).
Proof.
  unfold splitext.
  rewrite (rsplit_lower p (or_introl eq_refl)).
  destruct (rsplit SLASH p) as [[b a]|].
  - rewrite (rsplit_lower a (or_intror eq_refl)).
    destruct (rsplit DOT a) as [[stem e]|]; [|reflexivity].
    rewrite all_dots_lower.
    destruct (forallb _ stem); [reflexivity|].
    cbn [fst snd]. unfold lower. rewrite !map_app. reflexivity.
  - rewrite (rsplit_lower p (or_intror eq_refl)).
    destruct (rsplit DOT p) as [[stem e]|]; [|reflexivity].
    rewrite all_dots_lower.
    destruct (forallb _ stem); reflexivity.
Qed.

Lemma main_unsupported (w : Main.world) (path mime : str) :
  Main.supported (snd (splitext (lower path))) = false ->
  Main.main w path mime =
  Raise (SystemExit (Main.UNSUPPORTED (snd (splitext (lower path))) mime)).
Proof.
  unfold Main.supported, Main.main. intros H.
  repeat (apply orb_false_iff in H as [H ?]).
  repeat match goal with
         | E : Py.eqb _ _ = false |- _ => rewrite E; clear E
         end.
  reflexivity.
Qed.

End Dispatch.

(** C6 as the specification states it fails: for the path [notes.XYZ] the
    diagnostic holds [.xyz], not the extension [.XYZ] that was given. *)
Lemma unsupported_extension_not_reported_as_given :
  Main.supported (lower (snd (splitext (lit "notes.XYZ")))) = false /\
  ~ Main.reports_given_extension Sample.world (lit "notes.XYZ")
      (lit "text/foo").
Proof.
  split; [vm_compute; reflexivity|].
  intros (msg & Hmain & Hext & _).
  vm_compute in Hmain. injection Hmain as <-.
  vm_compute in Hext. discriminate Hext.
Qed.

(** C6, amended.  When the extension of the path, lower-cased, is none of
    .docx, .pdf, .pptx, .doc, the process ends by [SystemExit] with a
    non-zero status and a diagnostic that holds the lower-cased extension
    and the MIME hint as given. *)
Theorem unsupported_extension_reported_lowercase (w : Main.world)
    (path mime : str) :
  Main.supported (lower (snd (splitext path))) = false ->
  let ext := lower (snd (splitext path)) in
  Main.main w path mime = Raise (SystemExit (Main.UNSUPPORTED ext mime)) /\
  Main.exit_status (Main.main w path mime) <> 0 /\
  contains ext (Main.UNSUPPORTED ext mime) = true /\
  contains mime (Main.UNSUPPORTED ext mime) = true.
Proof.
  intros H ext.
  assert (Hext : snd (splitext (lower path)) = ext)
    by (rewrite splitext_lower; reflexivity).
  assert (Hmain : Main.main w path mime =
                  Raise (SystemExit (Main.UNSUPPORTED ext mime))).
  { rewrite <- Hext. apply main_unsupported. now rewrite Hext. }
  split; [exact Hmain|]. rewrite Hmain.
  split; [discriminate|]. unfold Main.UNSUPPORTED. split.
  - apply contains_app.
  - rewrite !app_assoc. rewrite <- (app_assoc _ mime).
    apply contains_app.
Qed.

Lemma unsupported_extension_reported_lowercase_witness :
  Main.main Sample.world (lit "notes.XYZ") (lit "text/foo")
  = Raise (SystemExit
             (lit "Unsupported file extension for python extraction: .xyz (mime=text/foo)"))
  /\ contains (lit ".xyz")
       (Main.UNSUPPORTED (lit ".xyz") (lit "text/foo")) = true
  /\ contains (lit "text/foo")
       (Main.UNSUPPORTED (lit ".xyz") (lit "text/foo")) = true.
Proof.
  assert (H : Main.supported (lower (snd (splitext (lit "notes.XYZ")))) = false)
    by (vm_compute; reflexivity).
  pose proof (@unsupported_extension_reported_lowercase Sample.world
                (lit "notes.XYZ") (lit "text/foo") H) as (Hm & _ & He & Hh).
  split; [exact Hm | split; [exact He | exact Hh]].
Defined.

(** * Further properties of the script *)

(** ** Paths *)

Section Paths.

Lemma rsplit_absent (c : ascii) (s : str) :
  forallb (fun x => negb (eqb_char x c)) s = true -> rsplit c s = None.
Proof.
  induction s as [|x s IH]; [reflexivity|].
  cbn [forallb rsplit]. intros H. apply andb_true_iff in H as [Hx Hs].
  rewrite (IH Hs). apply negb_true_iff in Hx. now rewrite Hx.
Qed.

Lemma rsplit_last (c : ascii) (b a : str) :
  rsplit c a = None -> rsplit c (b ++ c :: a) = Some (b, a).
Proof.
  intros Ha. induction b as [|x b IH]; cbn [app rsplit].
  - now rewrite Ha, eqb_char_refl.
  - now rewrite IH.
Qed.

Lemma rsplit_dots (dots name : str) :
  forallb (fun x => eqb_char x DOT) dots = true ->
  rsplit DOT name = None ->
  match rsplit DOT (dots ++ name) with
  | Some (stem, _) => forallb (fun x => eqb_char x DOT) stem = true
  | None => True
  end.
Proof.
  intros Hd Hn. induction dots as [|x dots IH]; cbn [app].
  - now rewrite Hn.
  - cbn [forallb] in Hd. apply andb_true_iff in Hd as [Hx Hd].
    specialize (IH Hd). cbn [rsplit].
    destruct (rsplit DOT (dots ++ name)) as [[stem e]|].
    + cbn [forallb]. now rewrite Hx, IH.
    + now rewrite Hx.
Qed.

(** A last component made of dots and a name without a dot has no
    extension. *)
Lemma splitext_no_extension (prefix dots name : str) :
  prefix = [] \/ (exists dir, prefix = dir ++ [SLASH]) ->
  forallb (fun x => eqb_char x DOT) dots = true ->
  forallb (fun x => negb (eqb_char x DOT)) name = true ->
  forallb (fun x => negb (eqb_char x SLASH)) name = true ->
  snd (splitext (prefix ++ dots ++ name)) = [].
Proof.
  intros Hp Hd Hn Hs.
  assert (Hbase : rsplit SLASH (dots ++ name) = None).
  { apply rsplit_absent. rewrite forallb_app, Hs, andb_true_r.
    clear - Hd. induction dots as [|x dots IH]; [reflexivity|].
    cbn [forallb] in *. apply andb_true_iff in Hd as [Hx Hd].
    rewrite (IH Hd), andb_true_r.
    apply eqb_char_eq in Hx. subst x. reflexivity. }
  pose proof (@rsplit_dots dots name Hd (@rsplit_absent DOT name Hn)) as Hdots.
  unfold splitext. destruct Hp as [-> | [dir ->]].
  - cbn [app]. rewrite Hbase.
    destruct (rsplit DOT (dots ++ name)) as [[stem e]|]; [|reflexivity].
    now rewrite Hdots.
  - rewrite <- app_assoc. cbn [app]. rewrite (@rsplit_last SLASH dir _ Hbase).
    destruct (rsplit DOT (dots ++ name)) as [[stem e]|]; [|reflexivity].
    now rewrite Hdots.
Qed.

End Paths.

(** ** The dispatcher, further *)

(** X1.  The MIME hint never takes part in routing: it changes neither
    the exit status of the process nor, for a supported extension, the
    output or the exception. *)
Theorem main_mime_hint_is_diagnostic_only (w : Main.world)
    (path mime mime' : str) :
  Main.exit_status (Main.main w path mime)
  = Main.exit_status (Main.main w path mime') /\
  (forall out, Main.main w path mime = Ok out ->
               Main.main w path mime' = Ok out) /\
  (Main.supported (lower (snd (splitext path))) = true ->
   Main.main w path mime = Main.main w path mime').
Proof.
  assert (Hext : snd (splitext (lower path)) = lower (snd (splitext path)))
    by (rewrite splitext_lower; reflexivity).
  unfold Main.supported, Main.main. rewrite Hext.
  destruct (Py.eqb (lower (snd (splitext path))) (lit ".docx"));
    [repeat split; auto|].
  destruct (Py.eqb (lower (snd (splitext path))) (lit ".pdf"));
    [repeat split; auto|].
  destruct (Py.eqb (lower (snd (splitext path))) (lit ".pptx"));
    [repeat split; auto|].
  destruct (Py.eqb (lower (snd (splitext path))) (lit ".doc"));
    [repeat split; auto|].
  split; [reflexivity|]. split; [discriminate|]. cbn. discriminate.
Qed.

Lemma main_mime_hint_is_diagnostic_only_witness :
  Main.main Sample.world (lit "Report.DOCX") (lit "text/foo")
  = Main.main Sample.world (lit "Report.DOCX") [].
Proof.
  refine (proj2 (proj2 (@main_mime_hint_is_diagnostic_only Sample.world
                          (lit "Report.DOCX") (lit "text/foo") [])) _).
  vm_compute. reflexivity.
Defined.

(** X2.  Whenever the process succeeds, the extension was a supported one
    and standard output holds a trimmed text followed by exactly one
    newline. *)
Theorem main_output_is_trimmed_line (w : Main.world) (path mime out : str) :
  Main.main w path mime = Ok out ->
  Main.supported (lower (snd (splitext path))) = true /\
  exists text, out = text ++ [LF] /\ trimmed text.
Proof.
  assert (Hext : snd (splitext (lower path)) = lower (snd (splitext path)))
    by (rewrite splitext_lower; reflexivity).
  unfold Main.supported, Main.main, Main.print. rewrite Hext.
  destruct (Py.eqb (lower (snd (splitext path))) (lit ".docx")).
  { destruct (Docx.extract_docx _) as [text|] eqn:E; cbn [bind];
      [|discriminate].
    intros [= <-]. split; [reflexivity|]. exists text. split; [reflexivity|].
    apply docx_result_stripped in E as [x ->]. apply strip_trimmed. }
  destruct (Py.eqb (lower (snd (splitext path))) (lit ".pdf")).
  { destruct (Pdf.extract_pdf _) as [text|] eqn:E; cbn [bind];
      [|discriminate].
    intros [= <-]. split; [reflexivity|]. exists text. split; [reflexivity|].
    apply pdf_result_stripped in E as [x ->]. apply strip_trimmed. }
  destruct (Py.eqb (lower (snd (splitext path))) (lit ".pptx")).
  { destruct (Pptx.extract_pptx _) as [text|] eqn:E; cbn [bind];
      [|discriminate].
    intros [= <-]. split; [reflexivity|]. exists text. split; [reflexivity|].
    apply pptx_result_stripped in E as [x ->]. apply strip_trimmed. }
  destruct (Py.eqb (lower (snd (splitext path))) (lit ".doc")).
  { destruct (fst (Doc.extract_doc _ _)) as [text|] eqn:E; cbn [bind];
      [|discriminate].
    intros [= <-]. split; [reflexivity|]. exists text. split; [reflexivity|].
    apply doc_result_stripped in E as [x ->]. apply strip_trimmed. }
  discriminate.
Qed.

Lemma main_output_is_trimmed_line_witness :
  exists text, Sample.docx_text ++ [LF] = text ++ [LF] /\ trimmed text.
Proof.
  refine (proj2 (@main_output_is_trimmed_line Sample.world
                   (lit "Report.DOCX") [] (Sample.docx_text ++ [LF]) _)).
  vm_compute. reflexivity.
Defined.

(** X3.  Routing looks at the extension in lower case only, and the
    extractor is given the path as it was written: the process prints what
    the extractor of that extension returns for the path, or ends with
    the exception of that extractor. *)
Theorem main_routes_by_lowercased_extension (w : Main.world)
    (path mime : str) :
  (lower (snd (splitext path)) = lit ".docx" ->
   Main.main w path mime =
   (text <- Docx.extract_docx (Main.zipfile_at w path) ;;
    Ok (Main.print text))) /\
  (lower (snd (splitext path)) = lit ".pdf" ->
   Main.main w path mime =
   (text <- Pdf.extract_pdf (Main.pdf_at w path) ;; Ok (Main.print text))) /\
  (lower (snd (splitext path)) = lit ".pptx" ->
   Main.main w path mime =
   (text <- Pptx.extract_pptx (Main.zipfile_at w path) ;;
    Ok (Main.print text))) /\
  (lower (snd (splitext path)) = lit ".doc" ->
   Main.main w path mime =
   (text <- fst (Doc.extract_doc (Main.host w) path) ;;
    Ok (Main.print text))).
Proof.
  assert (Hext : snd (splitext (lower path)) = lower (snd (splitext path)))
    by (rewrite splitext_lower; reflexivity).
  unfold Main.main. rewrite Hext.
  repeat split; intros ->; reflexivity.
Qed.

Lemma main_routes_by_lowercased_extension_witness :
  Main.main Sample.world (lit "/in/Slides.PpTx") []
  = (text <- Pptx.extract_pptx
               (Main.zipfile_at Sample.world (lit "/in/Slides.PpTx")) ;;
     Ok (Main.print text)).
Proof.
  refine (proj1 (proj2 (proj2 (@main_routes_by_lowercased_extension
                                 Sample.world (lit "/in/Slides.PpTx") []))) _).
  vm_compute. reflexivity.
Defined.

(** X4.  A path whose last component is a name without a dot, with or
    without dots in front of it (as in [notes] or [.docx]), has no
    extension for the dispatcher: the process ends as for an unsupported
    extension, with the empty extension in the diagnostic. *)
Theorem main_dotfile_is_unsupported (w : Main.world)
    (prefix dots name mime : str) :
  prefix = [] \/ (exists dir, prefix = dir ++ [SLASH]) ->
  forallb (fun x => eqb_char x DOT) dots = true ->
  forallb (fun x => negb (eqb_char x DOT)) name = true ->
  forallb (fun x => negb (eqb_char x SLASH)) name = true ->
  Main.main w (prefix ++ dots ++ name) mime
  = Raise (SystemExit (Main.UNSUPPORTED [] mime)).
Proof.
  intros Hp Hd Hn Hs.
  assert (Hext : snd (splitext (lower (prefix ++ dots ++ name))) = []).
  { rewrite splitext_lower. cbn [snd].
    now rewrite (@splitext_no_extension prefix dots name Hp Hd Hn Hs). }
  rewrite main_unsupported; rewrite Hext; reflexivity.
Qed.

Lemma main_dotfile_is_unsupported_witness :
  Main.main Sample.world (lit "/srv/in/.docx") (lit "text/foo")
  = Raise (SystemExit (Main.UNSUPPORTED [] (lit "text/foo"))).
Proof.
  refine (@main_dotfile_is_unsupported Sample.world (lit "/srv/in/")
            (lit ".") (lit "docx") (lit "text/foo") _ _ _ _).
  - right. exists (lit "/srv/in"). reflexivity.
  - reflexivity.
  - reflexivity.
  - reflexivity.
Defined.

(** ** Trimming and joining *)

Section Joining.

Lemma lstrip_blank (s : str) : blank s = true -> lstrip s = [].
Proof.
  induction s as [|c s IH]; [reflexivity|].
  cbn [blank forallb lstrip]. intros H. apply andb_true_iff in H as [Hc Hs].
  rewrite Hc. now apply IH.
Qed.

Lemma strip_blank (s : str) : blank s = true -> strip s = [].
Proof. intros H. unfold strip. now rewrite (lstrip_blank s H). Qed.

Lemma strip_clean (s : str) : clean s -> strip s = s.
Proof.
  intros [(c & r & -> & Hc) (c' & r' & Hrev & Hc')].
  unfold strip, rstrip. cbn [lstrip]. rewrite Hc.
  rewrite Hrev. cbn [lstrip]. rewrite Hc', <- Hrev. apply rev_involutive.
Qed.

Lemma trimmed_clean (s : str) : s <> [] -> trimmed s -> clean s.
Proof.
  intros Hne (_ & Hhead & Hlast). split.
  - destruct s as [|c r]; [contradiction|].
    exists c, r. split; [reflexivity | now apply (Hhead c r)].
  - destruct (exists_last Hne) as (r & c & ->).
    exists c, (rev r). split; [|now apply (Hlast c r)].
    now rewrite rev_app_distr.
Qed.

Lemma join_clean (sep : str) (blocks : list str) :
  blocks <> [] -> Forall clean blocks -> clean (join sep blocks).
Proof.
  intros Hne H. induction H as [|x blocks Hx Hr IH]; [contradiction|].
  destruct blocks as [|y blocks]; [exact Hx|].
  assert (Hrest : clean (join sep (y :: blocks))) by (apply IH; discriminate).
  change (join sep (x :: y :: blocks))
    with (x ++ sep ++ join sep (y :: blocks)).
  destruct Hx as [(c & r & -> & Hc) _].
  destruct Hrest as [_ (c' & r' & Hrev & Hc')].
  split.
  - exists c, (r ++ sep ++ join sep (y :: blocks)). now split.
  - rewrite !rev_app_distr, Hrev.
    exists c', (r' ++ rev sep ++ rev (c :: r)).
    split; [now rewrite <- !app_assoc | exact Hc'].
Qed.

(** Joining non-empty trimmed blocks gives a trimmed text: trimming the
    joined text changes nothing. *)
Lemma strip_join (sep : str) (blocks : list str) :
  Forall (fun b => b <> [] /\ trimmed b) blocks ->
  strip (join sep blocks) = join sep blocks.
Proof.
  intros H. destruct blocks as [|x blocks]; [reflexivity|].
  apply strip_clean, join_clean; [discriminate|].
  eapply Forall_impl; [|exact H].
  intros b [Hne Ht]. now apply trimmed_clean.
Qed.

Lemma kept_blocks (texts : list str) :
  Forall (fun b => b <> [] /\ trimmed b) (filter truthy (map strip texts)).
Proof.
  apply Forall_forall. intros b Hb.
  apply filter_In in Hb as [Hin Hb].
  apply in_map_iff in Hin as (x & <- & _).
  split; [|apply strip_trimmed].
  destruct (strip x); [discriminate Hb | discriminate].
Qed.

End Joining.

(** ** The word-processing extractor, further *)


(** X6.  With the main document entry read, the text is the kept
    paragraphs joined by single newlines; every kept paragraph is
    non-empty and trimmed, so the last trimming changes nothing and no
    separator stands at either end of the text. *)
Theorem docx_text_is_joined_paragraphs (zf : Zip.ZipFile)
    (root : ET.Element) :
  Zip.getinfo zf (lit "word/document.xml") = Some (ET.Xml root) ->
  let paragraphs :=
    filter truthy
      (map Docx.spec_paragraph (ET.findall (Docx.W "p") root)) in
  Docx.extract_docx (Zip.Opened zf) = Ok (join [LF] paragraphs) /\
  Forall (fun p => p <> [] /\ trimmed p) paragraphs.
Proof.
  intros Hget paragraphs.
  assert (Hkept : Forall (fun p => p <> [] /\ trimmed p) paragraphs).
  { unfold paragraphs, Docx.spec_paragraph. rewrite <- map_map.
    apply kept_blocks. }
  split; [|exact Hkept].
  unfold Docx.extract_docx, Zip.read. cbn [Zip.open bind].
  rewrite Hget. cbn [ET.fromstring bind].
  rewrite collect_fold. cbn [app]. fold paragraphs.
  now rewrite strip_join.
Qed.

Lemma docx_text_is_joined_paragraphs_witness :
  Docx.extract_docx Sample.docx
  = Ok (join [LF]
          [lit "Hello" ++ [TAB] ++ lit "world"; lit "line" ++ [LF] ++ lit "two"]).
Proof.
  refine (proj1 (@docx_text_is_joined_paragraphs
                   [(lit "[Content_Types].xml", ET.Malformed);
                    (lit "word/document.xml", ET.Xml Sample.document)]
                   Sample.document _)).
  vm_compute. reflexivity.
Defined.

(** X7.  A paragraph below which every node renders to white space only
    (tabs, breaks, blank runs, or nothing) adds no paragraph to the
    output. *)
Theorem docx_blank_paragraph_dropped (paragraphs : list str)
    (p : ET.Element) :
  (forall node, In node (ET.iter p) ->
                blank (Docx.spec_render node) = true) ->
  Docx.collect paragraphs p = paragraphs.
Proof.
  intros H. rewrite collect_spec.
  assert (Hb : blank (List.concat (map Docx.spec_render (ET.iter p))) = true).
  { induction (ET.iter p) as [|n l IH]; [reflexivity|].
    cbn [map List.concat]. unfold blank in *. rewrite forallb_app.
    rewrite (H n (or_introl eq_refl)). cbn [andb].
    apply IH. intros node Hin. apply H. now right. }
  unfold Docx.spec_paragraph. rewrite (strip_blank _ Hb).
  cbn. apply app_nil_r.
Qed.

Lemma docx_blank_paragraph_dropped_witness :
  Docx.collect [lit "before"] Sample.blank_paragraph = [lit "before"].
Proof.
  apply docx_blank_paragraph_dropped.
  intros node Hin. cbn in Hin.
  repeat (destruct Hin as [<-|Hin]; [vm_compute; reflexivity|]).
  destruct Hin.
Defined.

(** ** Trees *)

Section Trees.

(** What lies below a node of a subtree lies in the subtree. *)
Lemma iter_below (r p q : ET.Element) :
  In p (ET.iter r) -> In q (ET.iter p) -> In q (ET.iter r).
Proof.
  revert r. apply (@ET.subtree_ind
    (fun r => In p (ET.iter r) -> In q (ET.iter p) -> In q (ET.iter r))).
  intros t x cs IH Hp Hq. cbn [ET.iter] in Hp.
  destruct Hp as [<- | Hp]; [exact Hq|].
  cbn [ET.iter]. right.
  apply in_flat_map in Hp as (c & Hc & Hp).
  apply in_flat_map. exists c. split; [exact Hc|].
  rewrite Forall_forall in IH. now apply IH.
Qed.

(** The walk of a subtree is one stretch of the walk of the tree. *)
Lemma iter_stretch (p q : ET.Element) :
  In q (ET.iter p) -> exists a b, ET.iter p = a ++ ET.iter q ++ b.
Proof.
  revert p. apply (@ET.subtree_ind
    (fun p => In q (ET.iter p) ->
              exists a b, ET.iter p = a ++ ET.iter q ++ b)).
  intros t x cs IH Hq. cbn [ET.iter] in Hq.
  destruct Hq as [<- | Hq].
  { exists [], []. now rewrite app_nil_r. }
  cbn [ET.iter].
  assert (H : exists a b, flat_map ET.iter cs = a ++ ET.iter q ++ b).
  { clear t x. induction IH as [|c cs Hc _ IHcs]; [destruct Hq|].
    cbn [flat_map] in *. apply in_app_or in Hq as [Hq|Hq].
    - destruct (Hc Hq) as (a & b & E). rewrite E.
      exists a, (b ++ flat_map ET.iter cs). now rewrite <- !app_assoc.
    - destruct (IHcs Hq) as (a & b & E). rewrite E.
      exists (ET.iter c ++ a), b. now rewrite <- app_assoc. }
  destruct H as (a & b & E). rewrite E.
  now exists (ET.Elem t x cs :: a), b.
Qed.

End Trees.

(** X8.  A paragraph that lies inside another paragraph is extracted
    twice: it is a paragraph of the document in its own right, and its
    untrimmed text is also a stretch of the text of the paragraph around
    it. *)
Theorem docx_nested_paragraph_repeated (root p q : ET.Element) :
  In p (ET.findall (Docx.W "p") root) ->
  In q (ET.iter p) ->
  ET.tag q = Docx.W "p" ->
  In q (ET.findall (Docx.W "p") root) /\
  exists a b,
    Docx.raw_paragraph p = a ++ Docx.raw_paragraph q ++ b.
Proof.
  intros Hp Hq Htag. split.
  - unfold ET.findall in *. apply filter_In in Hp as [Hp _].
    apply filter_In. split; [|rewrite Htag; apply eqb_refl].
    apply in_flat_map in Hp as (c & Hc & Hp).
    apply in_flat_map. exists c. split; [exact Hc|].
    now apply (iter_below c p q).
  - destruct (iter_stretch p q Hq) as (a & b & E).
    unfold Docx.raw_paragraph. rewrite E, !map_app, !concat_app.
    now eexists _, _.
Qed.

Lemma docx_nested_paragraph_repeated_witness :
  In Sample.inner_paragraph
     (ET.findall (Docx.W "p") Sample.boxed_document) /\
  exists a b,
    Docx.raw_paragraph Sample.outer_paragraph
    = a ++ Docx.raw_paragraph Sample.inner_paragraph ++ b.
Proof.
  apply docx_nested_paragraph_repeated.
  - vm_compute. left. reflexivity.
  - vm_compute. do 4 right. left. reflexivity.
  - reflexivity.
Defined.

(** The text box of the sample: the inner text comes out twice. *)
Example docx_text_box_text :
  Docx.extract_docx
    (Zip.Opened [(lit "word/document.xml", ET.Xml Sample.boxed_document)])
  = Ok (lit "Outer Inner" ++ [LF] ++ lit "Inner").
Proof. vm_compute. reflexivity. Qed.

(** ** The PDF extractor, further *)

(** X9.  With a reader built and its pages walked, the text is the kept
    page texts joined by blank lines; every kept page text is non-empty
    and trimmed, so no separator stands at either end of the text and the
    last trimming changes nothing. *)
Theorem pdf_text_is_joined_pages (env : Pdf.libraries)
    (reader : Pdf.PdfReader) :
  Pdf.open_reader env = Ok reader ->
  Pdf.pages_raise reader = false ->
  let pages_text :=
    filter truthy
      (map strip (flat_map Pdf.returned (Pdf.pages reader))) in
  Pdf.extract_pdf env = Ok (join [LF; LF] pages_text) /\
  Forall (fun t => t <> [] /\ trimmed t) pages_text.
Proof.
  intros Hopen Hwalk pages_text.
  assert (Hkept : Forall (fun t => t <> [] /\ trimmed t) pages_text)
    by apply kept_blocks.
  split; [|exact Hkept].
  rewrite (extract_pdf_reader _ Hopen), Hwalk.
  unfold Pdf.spec_pdf. fold pages_text. now rewrite strip_join.
Qed.

Lemma pdf_text_is_joined_pages_witness :
  Pdf.extract_pdf Sample.pdf = Ok (join [LF; LF] [lit "first"; lit "fourth"]).
Proof.
  exact (proj1 (@pdf_text_is_joined_pages Sample.pdf Sample.reader
                  eq_refl eq_refl)).
Defined.

(** ** The presentation extractor, further *)

Section PptxFurther.

Import Pptx.







Lemma for_each_ext (S T : Type) (f g : S -> T -> result S) (l : list T) :
  (forall x, In x l -> forall s, f s x = g s x) ->
  forall s, for_each f l s = for_each g l s.
Proof.
  induction l as [|x l IH]; intros H s; [reflexivity|].
  cbn [for_each]. rewrite (H x (or_introl eq_refl)).
  destruct (g s x); cbn [bind]; [|reflexivity].
  apply IH. intros y Hy. apply H. now right.
Qed.

Lemma namelist_slides_only (zf : Zip.ZipFile) :
  Zip.namelist (slides_only zf) = filter is_slide (Zip.namelist zf).
Proof.
  unfold Zip.namelist, slides_only.
  induction zf as [|[n m] zf IH]; [reflexivity|].
  cbn [filter map fst].
  destruct (is_slide n); cbn [map fst]; now rewrite IH.
Qed.

Lemma getinfo_slides_only (zf : Zip.ZipFile) (name : str) :
  is_slide name = true ->
  Zip.getinfo (slides_only zf) name = Zip.getinfo zf name.
Proof.
  intros Hs. induction zf as [|[n m] zf IH]; [reflexivity|].
  cbn [slides_only filter fst Zip.getinfo].
  destruct (is_slide n) eqn:En.
  - cbn [Zip.getinfo]. fold (slides_only zf). now rewrite IH.
  - fold (slides_only zf). rewrite IH.
    destruct (Zip.getinfo zf name); [reflexivity|].
    destruct (Py.eqb n name) eqn:E; [|reflexivity].
    apply eqb_eq in E. congruence.
Qed.

Lemma filter_twice (T : Type) (f : T -> bool) (l : list T) :
  filter f (filter f l) = filter f l.
Proof.
  induction l as [|x l IH]; [reflexivity|].
  cbn [filter]. destruct (f x) eqn:E; [|exact IH].
  cbn [filter]. now rewrite E, IH.
Qed.

Lemma slide_order_slides (zf : Zip.ZipFile) (names : list str) (name : str) :
  slide_order zf = Ok names -> In name names ->
  In name (Zip.namelist zf) /\ is_slide name = true.
Proof.
  intros H Hin. destruct (sort_spec _ _ H) as (Hp & _).
  apply (Permutation_in _ Hp) in Hin. now apply filter_In in Hin.
Qed.

End PptxFurther.



(** X11.  Only the slide entries of the archive count: the members whose
    names do not match the slide pattern (layouts, relations, media, even
    malformed ones) can be taken out of the archive without any change to
    the text or to the exception. *)
Theorem pptx_only_slide_entries_matter (zf : Zip.ZipFile) :
  Pptx.extract_pptx (Zip.Opened (Pptx.slides_only zf))
  = Pptx.extract_pptx (Zip.Opened zf).
Proof.
  unfold Pptx.extract_pptx, Pptx.slide_blocks. cbn [Zip.open bind].
  assert (Ho : Pptx.slide_order (Pptx.slides_only zf) = Pptx.slide_order zf).
  { unfold Pptx.slide_order.
    now rewrite namelist_slides_only, filter_twice. }
  rewrite Ho.
  destruct (Pptx.slide_order zf) as [names|e] eqn:Eo; cbn [bind];
    [|reflexivity].
  rewrite (@for_each_ext _ _ (Pptx.slide (Pptx.slides_only zf))
             (Pptx.slide zf) names); [reflexivity|].
  intros name Hin acc.
  destruct (slide_order_slides zf name Eo Hin) as [_ Hs].
  unfold Pptx.slide, Zip.read. now rewrite getinfo_slides_only.
Qed.

(** X12.  The index of a slide comes from the last component of its name
    alone: digits in the directories of the name do not count. *)
Theorem slide_index_ignores_directory (dir base : str) :
  forallb (fun x => negb (eqb_char x SLASH)) base = true ->
  Pptx.slide_index (dir ++ SLASH :: base) = Pptx.slide_index base.
Proof.
  intros H. pose proof (@rsplit_absent SLASH base H) as Hb.
  unfold Pptx.slide_index, basename.
  now rewrite (@rsplit_last SLASH dir base Hb), Hb.
Qed.

Lemma slide_index_ignores_directory_witness :
  Pptx.slide_index (lit "ppt2/slides3/slide14.xml")
  = Pptx.slide_index (lit "slide14.xml").
Proof.
  exact (@slide_index_ignores_directory (lit "ppt2/slides3")
           (lit "slide14.xml") eq_refl).
Defined.

(** ** The legacy extractor, further *)

(** The cases of one run, with the log and the result of each. *)
Ltac doc_cases E :=
  doc_unfold_in E;
  repeat match type of E with
         | context [if ?c then _ else _] => destruct c eqn:?
         | context [match ?c with [] => _ | _ :: _ => _ end] =>
             destruct c eqn:?
         end;
  injection E as <- <-.

(** X13.  One run of the legacy extractor starts at most one command; the
    path is the last argument of that command, as it was given; and a
    file is read only after a conversion by the office suite that exited
    with status 0. *)
Theorem doc_runs_one_command (h : Doc.host) (path : str) :
  List.length (Doc.commands (snd (Doc.extract_doc h path))) <= 1 /\
  (forall cmd,
      In cmd (Doc.commands (snd (Doc.extract_doc h path))) ->
      last cmd [] = path) /\
  (forall file,
      In (Doc.Read file) (snd (Doc.extract_doc h path)) ->
      exists cmd,
        In cmd (Doc.commands (snd (Doc.extract_doc h path))) /\
        Doc.returncode (Doc.run h cmd) = 0 /\
        Doc.touches (Doc.Run cmd) = Some Doc.Office).
Proof.
  destruct (Doc.extract_doc h path) as [r tr] eqn:E.
  doc_cases E; cbn [snd Doc.commands flat_map app List.length In].
  all: split; [lia|].
  all: split;
    [ first [ intros cmd [<-|[]]; reflexivity | intros cmd [] ]
    | intros file Hin;
      repeat match type of Hin with
             | _ \/ _ => destruct Hin as [Hin|Hin]
             | False => destruct Hin
             end;
      try discriminate Hin ].
  all: eexists; split; [left; reflexivity|];
    split; [now apply Nat.eqb_eq | vm_compute; reflexivity].
Qed.

Lemma doc_runs_one_command_witness :
  last (Doc.antiword_cmd (lit "memo.doc")) [] = lit "memo.doc".
Proof.
  refine (proj1 (proj2 (doc_runs_one_command (Sample.antiword_host 0)
                          (lit "memo.doc"))) _ _).
  vm_compute. left. reflexivity.
Defined.

(** X14.  When the platform converter and antiword are absent, the office
    suite is present and its conversion exits with status 0: the command
    is [soffice] if that name is found, [libreoffice] otherwise; the text
    is the trimmed content of the first entry of the output directory
    whose name ends in [.txt] in any letter case; and without such an
    entry the extractor raises the same error as on a host without any
    tool. *)
Theorem doc_office_result (h : Doc.host) (path : str) :
  Doc.present h Doc.Textutil = false ->
  Doc.present h Doc.Antiword = false ->
  Doc.present h Doc.Office = true ->
  (forall soffice,
      Doc.returncode (Doc.run h (Doc.soffice_cmd h soffice path)) = 0) ->
  Doc.commands (snd (Doc.extract_doc h path))
  = [Doc.soffice_cmd h
       (if Doc.call h (Doc.which (lit "soffice")) =? 0
        then lit "soffice" else lit "libreoffice") path] /\
  fst (Doc.extract_doc h path)
  = match Doc.text_outputs h with
    | first :: _ =>
        Ok (strip (Doc.read h (Doc.path_join (Doc.tempdir h) first)))
    | [] => Raise (RuntimeError Doc.UNABLE)
    end.
Proof.
  intros Ht Ha Ho Hrc.
  unfold Doc.text_outputs.
  destruct (Doc.extract_doc h path) as [r tr] eqn:E.
  doc_cases E; cbn [fst snd Doc.commands flat_map app];
    doc_present_in Ht; doc_present_in Ha; doc_present_in Ho;
    try discriminate Ht; try discriminate Ha; try discriminate Ho;
    try (match goal with
         | Hz : (Doc.returncode _ =? 0) = false |- _ =>
             rewrite Hrc in Hz; discriminate Hz
         end);
    split; reflexivity.
Qed.

Lemma doc_office_result_witness :
  fst (Doc.extract_doc (Sample.office_host [lit "memo.log"; lit "MEMO.TXT"])
         (lit "memo.doc"))
  = Ok (lit "read from /tmp/tmpdoc/MEMO.TXT") /\
  fst (Doc.extract_doc (Sample.office_host [lit "memo.log"]) (lit "memo.doc"))
  = Raise (RuntimeError Doc.UNABLE).
Proof.
  split.
  - refine (proj2 (@doc_office_result
                     (Sample.office_host [lit "memo.log"; lit "MEMO.TXT"])
                     (lit "memo.doc") _ _ _ _)); reflexivity.
  - refine (proj2 (@doc_office_result
                     (Sample.office_host [lit "memo.log"])
                     (lit "memo.doc") _ _ _ _)); reflexivity.
Defined.

(** X15.  Off the platform named Darwin the platform converter is left
    alone: the extractor neither looks for it nor runs it, whether or not
    a file exists at its path. *)
Theorem doc_textutil_only_on_darwin (h : Doc.host) (path : str) :
  Py.eqb (Doc.system h) (lit "Darwin") = false ->
  forall ev, In ev (snd (Doc.extract_doc h path)) ->
             Doc.touches ev <> Some Doc.Textutil.
Proof.
  intros Hsys ev Hin.
  destruct (Doc.extract_doc h path) as [r tr] eqn:E.
  doc_unfold_in E. rewrite Hsys in E.
  cbv beta iota zeta fix delta [app] in E.
  repeat match type of E with
         | context [if ?c then _ else _] => destruct c eqn:?
         | context [match ?c with [] => _ | _ :: _ => _ end] =>
             destruct c eqn:?
         end;
    injection E as <- <-; cbn [snd In] in Hin;
    repeat match type of Hin with
           | _ \/ _ => destruct Hin as [Hin|Hin]
           | False => destruct Hin
           end;
    subst ev; vm_compute; discriminate.
Qed.

Lemma doc_textutil_only_on_darwin_witness :
  Doc.touches (Doc.Run (Doc.antiword_cmd (lit "memo.doc")))
  <> Some Doc.Textutil.
Proof.
  refine (@doc_textutil_only_on_darwin (Sample.antiword_host 0)
            (lit "memo.doc") _ _ _).
  - reflexivity.
  - vm_compute. right. left. reflexivity.
Defined.

(** X16.  When the platform converter, or in its absence antiword, is
    present and exits with status 0, the text is the trimmed standard
    output of that tool, and no other tool is looked for after it. *)
Theorem doc_tool_output_trimmed (h : Doc.host) (path : str) :
  (Doc.present h Doc.Textutil = true ->
   Doc.returncode (Doc.run h (Doc.textutil_cmd path)) = 0 ->
   Doc.extract_doc h path
   = (Ok (strip (Doc.stdout (Doc.run h (Doc.textutil_cmd path)))),
      [Doc.Exists Doc.TEXTUTIL; Doc.Run (Doc.textutil_cmd path)])) /\
  (Doc.present h Doc.Textutil = false ->
   Doc.present h Doc.Antiword = true ->
   Doc.returncode (Doc.run h (Doc.antiword_cmd path)) = 0 ->
   fst (Doc.extract_doc h path)
   = Ok (strip (Doc.stdout (Doc.run h (Doc.antiword_cmd path)))) /\
   Doc.commands (snd (Doc.extract_doc h path)) = [Doc.antiword_cmd path] /\
   ~ Doc.tried (snd (Doc.extract_doc h path)) Doc.Office).
Proof.
  split.
  - intros Ht Hrc.
    destruct (Doc.extract_doc h path) as [r tr] eqn:E.
    doc_cases E; doc_present_in Ht; try discriminate Ht;
      try (match goal with
           | Hz : (Doc.returncode _ =? 0) = false |- _ =>
               rewrite Hrc in Hz; discriminate Hz
           end);
      reflexivity.
  - intros Ht Ha Hrc.
    destruct (Doc.extract_doc h path) as [r tr] eqn:E.
    doc_cases E; doc_present_in Ht; doc_present_in Ha;
      try discriminate Ht; try discriminate Ha;
      try (match goal with
           | Hz : (Doc.returncode _ =? 0) = false |- _ =>
               rewrite Hrc in Hz; discriminate Hz
           end);
      (split; [reflexivity|]); (split; [reflexivity|]);
      intros (ev & Hin & Hev); cbn [snd In] in Hin;
      repeat match type of Hin with
             | _ \/ _ => destruct Hin as [Hin|Hin]
             | False => destruct Hin
             end;
      subst ev; vm_compute in Hev; discriminate Hev.
Qed.

Lemma doc_tool_output_trimmed_witness :
  fst (Doc.extract_doc (Sample.antiword_host 0) (lit "memo.doc"))
  = Ok (lit "legacy text").
Proof.
  refine (proj1 (proj2 (@doc_tool_output_trimmed (Sample.antiword_host 0)
                          (lit "memo.doc")) _ _ _)); reflexivity.
Defined.

(** X17.  Every slide block is trimmed; and when none of the blocks is
    empty, the text of the presentation is the blocks joined by blank
    lines, nothing trimmed from it and no separator doubled. *)
Theorem pptx_text_is_joined_blocks (zf : Zip.ZipFile) (blocks : list str) :
  Pptx.slide_blocks zf = Ok blocks ->
  Forall trimmed blocks /\
  (Forall (fun b => b <> []) blocks ->
   Pptx.extract_pptx (Zip.Opened zf) = Ok (join [LF; LF] blocks)).
Proof.
  intros H.
  assert (Ht : Forall trimmed blocks).
  { unfold Pptx.slide_blocks in H.
    destruct (Pptx.slide_order zf) as [names|]; cbn [bind] in H;
      [|discriminate].
    apply for_each_slide in H. cbn [app] in H. subst blocks.
    apply Forall_forall. intros b Hb.
    apply in_flat_map in Hb as (name & _ & Hb).
    unfold Pptx.blocks_of, Pptx.slide in Hb.
    destruct (Zip.read zf name) as [xml|]; cbn [bind] in Hb; [|destruct Hb].
    destruct (ET.fromstring xml) as [root|]; cbn [bind] in Hb; [|destruct Hb].
    destruct (truthy (Pptx.texts_of root)); cbn [app] in Hb;
      [|destruct Hb].
    destruct Hb as [<-|[]]. apply strip_trimmed. }
  split; [exact Ht|]. intros Hne.
  unfold Pptx.extract_pptx. cbn [Zip.open bind]. rewrite H. cbn [bind].
  rewrite strip_join; [reflexivity|].
  rewrite Forall_forall in *. intros b Hb. split; auto.
Qed.

Lemma pptx_text_is_joined_blocks_witness :
  Pptx.extract_pptx (Zip.Opened Sample.deck)
  = Ok (join [LF; LF] [lit "one"; lit "two"; lit "ten"]).
Proof.
  refine (proj2 (@pptx_text_is_joined_blocks Sample.deck
                   [lit "one"; lit "two"; lit "ten"] _) _).
  - vm_compute. reflexivity.
  - repeat constructor; discriminate.
Defined.
